(** * Identity resolution for analytics events

    A shallow embedding of
    [packages/backend-core/src/events/identification.ts] and the
    properties of its identity-resolution logic.

    The module is asynchronous but single threaded: every [await] is a
    sequencing point, so a call is modelled as a function from the state
    of the outside world to a result and a new state.  A [throw] is an
    error result. *)

From Stdlib Require Import ZArith Lia.
From stdpp Require Import base option strings gmap list.

Local Open Scope Z_scope.

(** ** Values and objects *)

(** [Hosting] of [@budibase/types]. *)
Inductive Hosting := SELF | CLOUD.

Definition Hosting_eqb (a b : Hosting) : bool :=
  match a, b with
  | SELF, SELF | CLOUD, CLOUD => true
  | _, _ => false
  end.

(** Modelled from the spec: the enum [IdentityType] of [@budibase/types]
    is string valued; section 8 fixes the strings through
    [formatDistinctId("abc", INSTALLATION) == "$installation_abc"] and
    [formatDistinctId("abc", TENANT) == "$tenant_abc"].  A kind read from
    the ambient context at run time is any string. *)
Module IdentityType.
Definition USER : string := "user".
Definition TENANT : string := "tenant".
Definition INSTALLATION : string := "installation".
End IdentityType.

(** The JavaScript values that occur in the records built here. *)
Inductive JsVal :=
| JUndefined
| JStr (s : string)
| JBool (b : bool)
| JHosting (h : Hosting).

(** An object literal: property name to value.  A property written as
    [p: undefined] is present and holds [JUndefined]. *)
Abbreviation Obj := (gmap string JsVal).

Definition optStr (o : option string) : JsVal :=
  match o with
  | Some s => JStr s
  | None => JUndefined
  end.

(** Truthiness of a [string | undefined], as tested by [if (x)]. *)
Definition truthy (o : option string) : bool :=
  match o with
  | Some s => negb (String.eqb s "")
  | None => false
  end.

(** [if (x) { yes } else { no }] on a [string | undefined]; in the first
    branch [x] is a string. *)
Definition ifTruthy {A} (x : option string) (yes : string -> A) (no : A) : A :=
  match x with
  | Some s => if String.eqb s "" then no else yes s
  | None => no
  end.

(** [a === b] on two [string | undefined]. *)
Definition strictEq (a b : option string) : bool :=
  match a, b with
  | Some x, Some y => String.eqb x y
  | None, None => true
  | _, _ => false
  end.

(** [timestamp?: string | number]. *)
Inductive Timestamp :=
| TsString (s : string)
| TsNumber (n : Z).

(** ** Inputs *)

(** Modelled from the spec: [AuthType] of [@budibase/types], the
    discriminant of single-sign-on accounts. *)
Inductive AuthType := SSO | PASSWORD.

(** The fields of [Account], [CloudAccount] and [SSOAccount] that the
    module reads.  At run time an account is one object, so the fields
    of the subtypes are optional properties of it. *)
Module Account.
Record t := mk {
  accountId : string;
  tenantId : string;
  verified : bool;
  hosting : Hosting;
  authType : AuthType;
  profession : option string;
  size : option string;
  budibaseUserId : option string;
  providerType : option string
}.
End Account.

(** Modelled from the spec: the type guard [isCloudAccount] of
    [@budibase/types].  Section 3 gives an account record its own
    hosting mode; a cloud account is one whose mode is CLOUD. *)
Definition isCloudAccount (account : Account.t) : bool :=
  Hosting_eqb (Account.hosting account) CLOUD.

(** Modelled from the spec: the type guard [isSSOAccount] of
    [@budibase/types], true of accounts that authenticate through a
    provider. *)
Definition isSSOAccount (account : Account.t) : bool :=
  match Account.authType account with
  | SSO => true
  | PASSWORD => false
  end.

(** [{ global: boolean }], the shape of [user.builder] and [user.admin]. *)
Record GlobalFlag := { global : bool }.

Module User.
Record t := mk {
  _id : option string;
  tenantId : string;
  builder : option GlobalFlag;
  admin : option GlobalFlag;
  providerType : option string
}.
End User.

(** [IdentityContext]; for a user context ([UserContext]) [_id] and
    [account] are those of the user. *)
Module IdentityContext.
Record t := mk {
  type : string;
  _id : option string;
  account : option Account.t
}.
End IdentityContext.

(** ** The persisted settings document *)

(** [SettingsConfig.config]: the unique tenant id and the other
    settings, which this module never looks at. *)
Record SettingsInnerConfig := {
  uniqueTenantId : option string;
  settings : gmap string JsVal
}.

(** [SettingsConfig]: the inner config and the remaining top-level
    properties of the document ([_id], [_rev], [type], ...). *)
Module SettingsConfig.
Record t := mk {
  properties : gmap string JsVal;
  config : SettingsInnerConfig
}.
End SettingsConfig.

(** [config.config.uniqueTenantId = v] *)
Definition set_uniqueTenantId (v : string) (doc : SettingsConfig.t) : SettingsConfig.t :=
  {| SettingsConfig.properties := SettingsConfig.properties doc;
     SettingsConfig.config :=
       {| uniqueTenantId := Some v;
          settings := settings (SettingsConfig.config doc) |} |}.

(** ** The outside world *)

(** [env] of [../environment] and the version of [package.json]. *)
Module Env.
Record t := mk {
  SELF_HOSTED : bool;
  SERVICE : string;
  version : string
}.
End Env.

(** What the module does to its collaborators, in the order it does it. *)
Inductive Effect :=
| DbGet (tenant : string)
| DbPut (tenant : string) (doc : SettingsConfig.t)
| CacheGet (tenant key : string)
| CacheStore (tenant key value : string) (ttl : Z)
| Identify (identity : Obj) (timestamp : option Timestamp)
| IdentifyGroup (group : Obj) (timestamp : option Timestamp).

(** A cache entry and the time at which it expires. *)
Record CacheEntry := { cached : string; expires : Z }.

(** Modelled from the spec: the state of the collaborators of section 6.
    - [identityContext], [tenantContext]: the ambient identity and tenant contexts;
    - [installId]: the record of the InstallationRegistry;
    - [globalDB]: ConfigStore, the settings document of every tenant;
    - [cache], [clock]: the process-wide TTL cache, keyed by tenant scope
      and cache key, and the time in seconds;
    - [entropy], [drawn]: the random id generator, as the sequence of ids
      it is going to produce and the number of ids already taken;
    - [trace]: the calls made so far. *)
Record World := mkWorld {
  env : Env.t;
  identityContext : option IdentityContext.t;
  tenantContext : string;
  installId : string;
  globalDB : string -> SettingsConfig.t;
  cache : gmap (string * string) CacheEntry;
  clock : Z;
  entropy : nat -> string;
  drawn : nat;
  trace : list Effect
}.

Definition with_tenantContext (t : string) (w : World) : World :=
  mkWorld (env w) (identityContext w) t (installId w) (globalDB w) (cache w)
          (clock w) (entropy w) (drawn w) (trace w).

Definition with_globalDB (s : string -> SettingsConfig.t) (w : World) : World :=
  mkWorld (env w) (identityContext w) (tenantContext w) (installId w) s (cache w)
          (clock w) (entropy w) (drawn w) (trace w).

Definition with_cache (c : gmap (string * string) CacheEntry) (w : World) : World :=
  mkWorld (env w) (identityContext w) (tenantContext w) (installId w) (globalDB w) c
          (clock w) (entropy w) (drawn w) (trace w).

Definition with_drawn (n : nat) (w : World) : World :=
  mkWorld (env w) (identityContext w) (tenantContext w) (installId w) (globalDB w) (cache w)
          (clock w) (entropy w) n (trace w).

Definition emit (e : Effect) (w : World) : World :=
  mkWorld (env w) (identityContext w) (tenantContext w) (installId w) (globalDB w) (cache w)
          (clock w) (entropy w) (drawn w) (trace w ++ [e]).

(** ** Promises: state and exceptions *)

(** [new Error(message)] *)
Inductive Exn := Error (message : string).

Inductive Result (A : Type) :=
| Ok (a : A)
| Throw (e : Exn).
Arguments Ok {A} a.
Arguments Throw {A} e.

Definition M (A : Type) : Type := World -> Result A * World.

#[global] Instance M_ret : MRet M := fun A a w => (Ok a, w).

#[global] Instance M_bind : MBind M := fun A B f m w =>
  match m w with
  | (Ok a, w') => f a w'
  | (Throw e, w') => (Throw e, w')
  end.

Definition throw {A} (e : Exn) : M A := fun w => (Throw e, w).
Definition gets {A} (f : World -> A) : M A := fun w => (Ok (f w), w).
Definition modify (f : World -> World) : M unit := fun w => (Ok tt, f w).

(** ** Collaborators *)

(** Modelled from the spec: [identityCtx.getIdentity()], the ambient
    identity context, [undefined] when there is none. *)
Definition getIdentity : M (option IdentityContext.t) := gets identityContext.

(** Modelled from the spec: the ambient tenant context of section 6,
    [getTenantId() -> string] and [doInTenant(tenantId, fn)], which runs
    [fn] with that tenant active and restores the caller's tenant
    afterwards, also when [fn] fails. *)
Definition getTenantId : M string := gets tenantContext.

Definition doInTenant {A} (tenant : string) (task : M A) : M A := fun w =>
  let '(r, w') := task (with_tenantContext tenant w) in
  (r, with_tenantContext (tenantContext w) w').

(** A handle on the global database of one tenant. *)
Record Db := { dbTenant : string }.

(** Modelled from the spec: [context.getGlobalDB()], the store of the
    tenant that is active. *)
Definition getGlobalDB : M Db := gets (fun w => {| dbTenant := tenantContext w |}).

Module Configs.
Inductive t := SETTINGS.
End Configs.

(** Modelled from the spec: ConfigStore,
    [getScopedFullConfig(db, {type: SETTINGS}) -> SettingsConfig] reads
    the tenant's settings document and [db.put(doc)] replaces it. *)
Definition getScopedFullConfig (db : Db) (type : Configs.t) : M SettingsConfig.t := fun w =>
  (Ok (globalDB w (dbTenant db)), emit (DbGet (dbTenant db)) w).

Definition put (db : Db) (doc : SettingsConfig.t) : M unit :=
  modify (fun w =>
    emit (DbPut (dbTenant db) doc)
      (with_globalDB
         (fun t => if String.eqb t (dbTenant db) then doc else globalDB w t) w)).

(** Modelled from the spec: the cache key and the time to live of
    section 4.2, a constant key and 24 hours. *)
Module CacheKeys.
Definition UNIQUE_TENANT_ID : string := "uniqueTenantId".
End CacheKeys.

Module TTL.
Definition ONE_DAY : Z := 86400.
End TTL.

(** The entry of the active tenant under [key], if it has not expired. *)
Definition cacheLookup (tenant key : string) (w : World) : option string :=
  match cache w !! (tenant, key) with
  | Some e => if clock w <? expires e then Some (cached e) else None
  | None => None
  end.

(** Modelled from the spec: [withCache(key, ttl, producerFn)], the TTL
    cache of sections 4.2 and 6.  The key is scoped to the active tenant.
    On a hit within the TTL the cached value is returned and the producer
    is not run; on a miss the producer runs and its value is cached. *)
Definition withCache (key : string) (ttl : Z) (fetchFn : M string) : M string :=
  tenant ← getTenantId;
  cachedValue ← (fun w => (Ok (cacheLookup tenant key w), emit (CacheGet tenant key) w));
  match cachedValue with
  | Some v => mret v
  | None =>
      fetchedValue ← fetchFn;
      modify (fun w =>
        emit (CacheStore tenant key fetchedValue ttl)
          (with_cache
             (<[(tenant, key) := {| cached := fetchedValue; expires := clock w + ttl |}]>
                (cache w)) w));;
      mret fetchedValue
  end.

(** Modelled from the spec: [hashing.newid()], the random id generator:
    the next id of the sequence. *)
Definition newid : M string := fun w =>
  (Ok (entropy w (drawn w)), with_drawn (S (drawn w)) w).

(** Modelled from the spec: InstallationRegistry,
    [getInstall() -> { installId }]. *)
Record Install := { install_installId : string }.

Definition getInstall : M Install :=
  gets (fun w => {| install_installId := installId w |}).

(** Modelled from the spec: EventSink, [processors.identify] and
    [processors.identifyGroup] accept a record and an optional
    timestamp. *)
Module processors.
Definition identify (identity : Obj) (timestamp : option Timestamp) : M unit :=
  modify (emit (Identify identity timestamp)).
Definition identifyGroup (group : Obj) (timestamp : option Timestamp) : M unit :=
  modify (emit (IdentifyGroup group timestamp)).
End processors.

(** ** [identification.ts] *)

Definition isAccountPortal : M bool :=
  gets (fun w => String.eqb (Env.SERVICE (env w)) "account-portal").

Definition getHostingFromEnv : M Hosting :=
  gets (fun w => if Env.SELF_HOSTED (env w) then SELF else CLOUD).

Definition getInstallationId : M string :=
  portal ← isAccountPortal;
  if (portal : bool) then mret "account-portal"
  else
    install ← getInstall;
    mret (install_installId install).

Definition formatDistinctId (id : string) (type : string) : string :=
  if String.eqb type IdentityType.INSTALLATION || String.eqb type IdentityType.TENANT
  then "$" +:+ type +:+ "_" +:+ id
  else id.

Definition getUniqueTenantId (tenantId : string) : M string :=
  doInTenant tenantId
    (withCache CacheKeys.UNIQUE_TENANT_ID TTL.ONE_DAY
       (db ← getGlobalDB;
        config ← getScopedFullConfig db Configs.SETTINGS;
        ifTruthy (uniqueTenantId (SettingsConfig.config config))
          (fun existing => mret existing)
          (id ← newid;
           let uniqueTenantId := id +:+ "_" +:+ tenantId in
           let config := set_uniqueTenantId uniqueTenantId config in
           put db config;;
           mret uniqueTenantId))).

Definition getEventTenantId (tenantId : string) : M string :=
  selfHosted ← gets (fun w => Env.SELF_HOSTED (env w));
  if (selfHosted : bool) then getUniqueTenantId tenantId
  else mret tenantId.

Definition identify (identity : Obj) (timestamp : option Timestamp) : M unit :=
  processors.identify identity timestamp.

Definition identifyGroup (group : Obj) (timestamp : option Timestamp) : M unit :=
  processors.identifyGroup group timestamp.

(** An object literal [{ p1: v1, ..., pn: vn }] with distinct names. *)
Definition object (props : list (string * JsVal)) : Obj := list_to_map props.

(** An identity can be an account user (self host), a budibase user, a
    tenant or an installation. *)
Definition getCurrentIdentity : M Obj :=
  identityContext ← getIdentity;
  let identityType :=
    match identityContext with
    | None => IdentityType.TENANT
    | Some ctx => IdentityContext.type ctx
    end in
  if String.eqb identityType IdentityType.INSTALLATION then
    installationId ← getInstallationId;
    hosting ← getHostingFromEnv;
    mret (object [("id", JStr (formatDistinctId installationId identityType));
                  ("hosting", JHosting hosting);
                  ("type", JStr identityType);
                  ("installationId", JStr installationId)])
  else if String.eqb identityType IdentityType.TENANT then
    installationId ← getInstallationId;
    tenantId ← getTenantId ≫= getEventTenantId;
    hosting ← getHostingFromEnv;
    mret (object [("id", JStr (formatDistinctId tenantId identityType));
                  ("type", JStr identityType);
                  ("hosting", JHosting hosting);
                  ("installationId", JStr installationId);
                  ("tenantId", JStr tenantId)])
  else if String.eqb identityType IdentityType.USER then
    tenantId ← getTenantId ≫= getEventTenantId;
    installationId ← getInstallationId;
    match identityContext with
    | Some userContext =>
        hosting ← match IdentityContext.account userContext with
                  | Some account => mret (Account.hosting account)
                  | None => getHostingFromEnv
                  end;
        mret (object [("id", optStr (IdentityContext._id userContext));
                      ("type", JStr identityType);
                      ("hosting", JHosting hosting);
                      ("installationId", JStr installationId);
                      ("tenantId", JStr tenantId)])
    | None =>
        (* not reached: without a context the type is TENANT *)
        throw (Error "Cannot read properties of undefined")
    end
  else
    throw (Error "Unknown identity type").

Definition identifyInstallationGroup (installId : string)
    (timestamp : option Timestamp) : M unit :=
  let id := installId in
  let type := IdentityType.INSTALLATION in
  hosting ← getHostingFromEnv;
  version ← gets (fun w => Env.version (env w));
  let group := object [("id", JStr id);
                       ("type", JStr type);
                       ("hosting", JHosting hosting);
                       ("version", JStr version)] in
  identifyGroup group timestamp;;
  (* a normal identity for the group, to be able to query it globally *)
  identify (<["id" := JStr ("$" +:+ type +:+ "_" +:+ id)]> group) timestamp.

Definition identifyTenantGroup (tenantId : string) (account : option Account.t)
    (timestamp : option Timestamp) : M unit :=
  id ← getEventTenantId tenantId;
  let type := IdentityType.TENANT in
  installationId ← getInstallationId;
  '(hosting, profession, companySize) ←
    match account with
    | Some account =>
        mret (Account.hosting account, Account.profession account, Account.size account)
    | None =>
        hosting ← getHostingFromEnv;
        mret (hosting, None, None)
    end;
  let group := object [("id", JStr id);
                       ("type", JStr type);
                       ("hosting", JHosting hosting);
                       ("installationId", JStr installationId);
                       ("profession", optStr profession);
                       ("companySize", optStr companySize)] in
  identifyGroup group timestamp;;
  (* a normal identity for the group, to be able to query it globally *)
  identify (<["id" := JStr ("$" +:+ type +:+ "_" +:+ id)]> group) timestamp.

(** [flag?.global || false] *)
Definition globalOrFalse (flag : option GlobalFlag) : bool :=
  match flag with
  | Some f => global f || false
  | None => false
  end.

Definition identifyUser (user : User.t) (account : option Account.t)
    (timestamp : option Timestamp) : M unit :=
  let id := User._id user in
  tenantId ← getEventTenantId (User.tenantId user);
  let type := IdentityType.USER in
  let builder := globalOrFalse (User.builder user) in
  let admin := globalOrFalse (User.admin user) in
  let providerType := User.providerType user in
  let accountHolder :=
    strictEq (account ≫= Account.budibaseUserId) (User._id user) || false in
  let verified :=
    match account with
    | Some a =>
        if strictEq (Account.budibaseUserId a) (User._id user)
        then Account.verified a else false
    | None => false
    end in
  installationId ← getInstallationId;
  hosting ← match account with
            | Some a => mret (Account.hosting a)
            | None => getHostingFromEnv
            end;
  let identity := object [("id", optStr id);
                          ("type", JStr type);
                          ("hosting", JHosting hosting);
                          ("installationId", JStr installationId);
                          ("tenantId", JStr tenantId);
                          ("verified", JBool verified);
                          ("accountHolder", JBool accountHolder);
                          ("providerType", optStr providerType);
                          ("builder", JBool builder);
                          ("admin", JBool admin)] in
  identify identity timestamp.

Definition identifyAccount (account : Account.t) : M unit :=
  let id := Account.accountId account in
  let tenantId := Account.tenantId account in
  let type := IdentityType.USER in
  let providerType :=
    if isSSOAccount account then Account.providerType account else None in
  let verified := Account.verified account in
  let accountHolder := true in
  let hosting := Account.hosting account in
  installationId ← getInstallationId;
  let id :=
    if isCloudAccount account then
      (* use the budibase user as the id if set *)
      ifTruthy (Account.budibaseUserId account) (fun budibaseUserId => budibaseUserId) id
    else id in
  let identity := object [("id", JStr id);
                          ("type", JStr type);
                          ("hosting", JHosting hosting);
                          ("installationId", JStr installationId);
                          ("tenantId", JStr tenantId);
                          ("providerType", optStr providerType);
                          ("verified", JBool verified);
                          ("accountHolder", JBool accountHolder)] in
  identify identity None.

(** * Observations *)

(** The unique tenant id persisted in the settings document of a tenant. *)
Definition persistedId (w : World) (tenant : string) : option string :=
  uniqueTenantId (SettingsConfig.config (globalDB w tenant)).

(** The live cache entry of the unique tenant id of a tenant. *)
Definition cachedId (w : World) (tenant : string) : option string :=
  cacheLookup tenant CacheKeys.UNIQUE_TENANT_ID w.

(** The cache memoizes reads of the document: a live entry holds the id
    that is persisted. *)
Definition cacheAgrees (w : World) (tenant : string) : Prop :=
  ∀ v, cachedId w tenant = Some v → persistedId w tenant = Some v ∧ v ≠ "".

(** The documents written by a sequence of calls. *)
Definition puts (calls : list Effect) : list (string * SettingsConfig.t) :=
  omap (fun e => match e with DbPut t doc => Some (t, doc) | _ => None end) calls.

(** The calls to the EventSink among a sequence of calls. *)
Definition isSinkCall (e : Effect) : bool :=
  match e with
  | Identify _ _ | IdentifyGroup _ _ => true
  | _ => false
  end.

Definition sinkCalls (calls : list Effect) : list Effect :=
  List.filter isSinkCall calls.

(** The id that [getUniqueTenantId] mints in [w] for a tenant. *)
Definition mintedId (w : World) (tenant : string) : string :=
  entropy w (drawn w) +:+ "_" +:+ tenant.

(** ** The three runs of [getUniqueTenantId] *)

Definition cacheEntry (w : World) (v : string) : CacheEntry :=
  {| cached := v; expires := clock w + TTL.ONE_DAY |}.

(** Cache hit. *)
Definition afterHit (tenant : string) (w : World) : World :=
  emit (CacheGet tenant CacheKeys.UNIQUE_TENANT_ID) w.

(** Cache miss, the document has the id. *)
Definition afterRead (tenant v : string) (w : World) : World :=
  mkWorld (env w) (identityContext w) (tenantContext w) (installId w) (globalDB w)
    (<[(tenant, CacheKeys.UNIQUE_TENANT_ID) := cacheEntry w v]> (cache w))
    (clock w) (entropy w) (drawn w)
    (((trace w ++ [CacheGet tenant CacheKeys.UNIQUE_TENANT_ID]) ++ [DbGet tenant])
       ++ [CacheStore tenant CacheKeys.UNIQUE_TENANT_ID v TTL.ONE_DAY]).

(** Cache miss, the document has no id. *)
Definition afterMint (tenant : string) (w : World) : World :=
  let v := mintedId w tenant in
  let doc := set_uniqueTenantId v (globalDB w tenant) in
  mkWorld (env w) (identityContext w) (tenantContext w) (installId w)
    (fun t => if String.eqb t tenant then doc else globalDB w t)
    (<[(tenant, CacheKeys.UNIQUE_TENANT_ID) := cacheEntry w v]> (cache w))
    (clock w) (entropy w) (S (drawn w))
    ((((trace w ++ [CacheGet tenant CacheKeys.UNIQUE_TENANT_ID]) ++ [DbGet tenant])
        ++ [DbPut tenant doc])
       ++ [CacheStore tenant CacheKeys.UNIQUE_TENANT_ID v TTL.ONE_DAY]).

(** Every run is one of the three. *)
Inductive UniqueTenantIdRun (tenant : string) (w : World) : Result string → World → Prop :=
| RunHit v :
    cachedId w tenant = Some v →
    UniqueTenantIdRun tenant w (Ok v) (afterHit tenant w)
| RunRead v :
    cachedId w tenant = None →
    persistedId w tenant = Some v → v ≠ "" →
    UniqueTenantIdRun tenant w (Ok v) (afterRead tenant v w)
| RunMint :
    cachedId w tenant = None →
    truthy (persistedId w tenant) = false →
    UniqueTenantIdRun tenant w (Ok (mintedId w tenant)) (afterMint tenant w).


(** ** What the claims speak of *)

(** What [getHostingFromEnv] and [getInstallationId] return in [w]. *)
Definition hostingFromEnv (w : World) : Hosting :=
  if Env.SELF_HOSTED (env w) then SELF else CLOUD.

Definition installationIdOf (w : World) : string :=
  if String.eqb (Env.SERVICE (env w)) "account-portal" then "account-portal"
  else installId w.

(** The kind that [getCurrentIdentity] branches on. *)
Definition currentKind (w : World) : string :=
  match identityContext w with
  | None => IdentityType.TENANT
  | Some ctx => IdentityContext.type ctx
  end.

Definition okStr (r : Result string) : JsVal :=
  match r with
  | Ok s => JStr s
  | Throw _ => JUndefined
  end.

(** The raw id behind the current identity: the installation id, the
    event tenant id or the id of the user, by kind. *)
Definition currentRawId (w : World) : JsVal :=
  if String.eqb (currentKind w) IdentityType.INSTALLATION then
    okStr (fst (getInstallationId w))
  else if String.eqb (currentKind w) IdentityType.TENANT then
    okStr (fst (getEventTenantId (tenantContext w) w))
  else
    match identityContext w with
    | Some ctx => optStr (IdentityContext._id ctx)
    | None => JUndefined
    end.

(** The invariant of the [id] of an identity built from [rawId]: prefixed
    for installations and tenants, raw for users. *)
Definition distinctIdInvariant (rawId : JsVal) (identity : Obj) : Prop :=
  ∃ kind, identity !! "type" = Some (JStr kind) ∧
    (((kind = IdentityType.INSTALLATION ∨ kind = IdentityType.TENANT) ∧
      ∃ raw, rawId = JStr raw ∧
        identity !! "id" = Some (JStr ("$" +:+ kind +:+ "_" +:+ raw)) ∧
        identity !! "id" ≠ Some (JStr raw)) ∨
     (kind = IdentityType.USER ∧ identity !! "id" = Some rawId)).

(** The group record that [identifyTenantGroup] builds from the event
    tenant id [id]. *)
Definition tenantGroupOf (id : string) (account : option Account.t) (w : World) : Obj :=
  object [("id", JStr id);
          ("type", JStr IdentityType.TENANT);
          ("hosting", JHosting (match account with
                                | Some a => Account.hosting a
                                | None => hostingFromEnv w
                                end));
          ("installationId", JStr (installationIdOf w));
          ("profession", optStr (account ≫= Account.profession));
          ("companySize", optStr (account ≫= Account.size))].

(** The ambient contexts and the registry are as before and no call to
    the EventSink was made. *)
Definition quiet (w w' : World) : Prop :=
  env w' = env w ∧ identityContext w' = identityContext w ∧
  tenantContext w' = tenantContext w ∧ installId w' = installId w ∧
  ∃ calls, trace w' = trace w ++ calls ∧ sinkCalls calls = [].

(** [identifyAccount] hands the EventSink an identity whose id is the
    [budibaseUserId] of the account whenever that is set. *)
Definition usesBudibaseUserId (account : Account.t) (w : World) : Prop :=
  ∀ u, Account.budibaseUserId account = Some u → u ≠ "" →
    ∃ identity,
      trace (snd (identifyAccount account w)) = trace w ++ [Identify identity None] ∧
      identity !! "id" = Some (JStr u).

(** The [UserIdentity] shape: a user identity with the fields that are
    not optional. *)
Definition conformsToUserIdentity (identity : Obj) : Prop :=
  identity !! "type" = Some (JStr IdentityType.USER) ∧
  ({["id"; "hosting"; "installationId"; "tenantId";
     "verified"; "accountHolder"; "builder"; "admin"]} : gset string) ⊆ dom identity.

(** ** Sample worlds *)

Module Sample.
(** A settings document without a unique tenant id, and one with. *)
Definition freshDoc : SettingsConfig.t :=
  SettingsConfig.mk {["_id" := JStr "config_settings"]}
    {| uniqueTenantId := None;
       settings := {["platformUrl" := JStr "http://localhost:10000"]} |}.

Definition namedDoc : SettingsConfig.t :=
  SettingsConfig.mk {["_id" := JStr "config_settings"]}
    {| uniqueTenantId := Some "7f3a_acme";
       settings := {["platformUrl" := JStr "http://localhost:10000"]} |}.

Definition ids (n : nat) : string :=
  match n with
  | O => "c0ffee"
  | S _ => "decade"
  end.

(** A self-hosted deployment just started: the tenant [acme] has its
    id, the others have none. *)
Definition selfHosted : World :=
  mkWorld (Env.mk true "worker" "2.3.1") None "default" "install_1"
    (fun t => if String.eqb t "acme" then namedDoc else freshDoc)
    ∅ 1000 ids 0 [].

(** The same deployment in the cloud. *)
Definition cloud : World :=
  mkWorld (Env.mk false "worker" "2.3.1") None "default" "install_1"
    (fun t => if String.eqb t "acme" then namedDoc else freshDoc)
    ∅ 1000 ids 0 [].

(** A self-hosted account that carries a [budibaseUserId]. *)
Definition selfHostAccount : Account.t :=
  Account.mk "ac_1" "acme" true SELF PASSWORD None None (Some "us_1") None.

(** A cloud account linked to the user [us_1]. *)
Definition cloudAccount : Account.t :=
  Account.mk "ac_1" "acme" true CLOUD PASSWORD (Some "engineer") (Some "10-50")
    (Some "us_1") None.

Definition user : User.t :=
  User.mk (Some "us_1") "acme" (Some {| global := true |}) None None.

(** The cloud deployment serving a request of the user [us_1]. *)
Definition cloudUser : World :=
  mkWorld (Env.mk false "worker" "2.3.1")
    (Some (IdentityContext.mk IdentityType.USER (Some "us_1") None))
    "acme" "install_1"
    (fun t => if String.eqb t "acme" then namedDoc else freshDoc)
    ∅ 1000 ids 0 [].

(** The same with a kind that is not an identity type. *)
Definition cloudRobot : World :=
  mkWorld (Env.mk false "worker" "2.3.1")
    (Some (IdentityContext.mk "robot" (Some "us_1") None))
    "acme" "install_1"
    (fun t => if String.eqb t "acme" then namedDoc else freshDoc)
    ∅ 1000 ids 0 [].
End Sample.

(** ** Later in the day *)

(** The world when the clock shows [time]. *)
Definition with_clock (time : Z) (w : World) : World :=
  mkWorld (env w) (identityContext w) (tenantContext w) (installId w) (globalDB w)
          (cache w) time (entropy w) (drawn w) (trace w).

(** The calls made between [w] and [w']. *)
Definition callsSince (w w' : World) : list Effect :=
  drop (length (trace w)) (trace w').

(** The characters of a string, to speak of the ids without an underscore. *)
Fixpoint hasUnderscore (s : string) : bool :=
  match s with
  | EmptyString => false
  | String c rest => String.eqb (String c EmptyString) "_" || hasUnderscore rest
  end.

(** ** More sample worlds *)

Module Scene.

(** The account portal. *)
Definition portal : World :=
  mkWorld (Env.mk false "account-portal" "2.3.1") None
    "default" "install_1" (fun _ => Sample.freshDoc) ∅ 1000 Sample.ids 0 [].

(** A cloud deployment serving a user whose account is self-hosted. *)
Definition visitor : World :=
  mkWorld (Env.mk false "worker" "2.3.1")
    (Some (IdentityContext.mk IdentityType.USER (Some "us_1")
             (Some Sample.selfHostAccount)))
    "acme" "install_1" (fun _ => Sample.freshDoc) ∅ 1000 Sample.ids 0 [].

(** An account that signs in through a provider, and the same account
    with a password. *)
Definition ssoAccount : Account.t :=
  Account.mk "ac_2" "globex" false SELF SSO None None None (Some "google").

Definition passwordAccount : Account.t :=
  Account.mk "ac_2" "globex" false SELF PASSWORD None None None (Some "google").
End Scene.

(** * The manifest generator

    The script that writes [manifest.json], the list of the handlebars
    helpers: its two functions that work on plain data. *)

Module Manifest.

(** [needle] is the beginning of [haystack]. *)
Fixpoint startsWith (haystack needle : string) {struct needle} : bool :=
  match needle with
  | EmptyString => true
  | String c needle' =>
      match haystack with
      | EmptyString => false
      | String d haystack' => Ascii.eqb c d && startsWith haystack' needle'
      end
  end.

(** [haystack.includes(needle)]: [needle] occurs in [haystack]. *)
Fixpoint includes (haystack needle : string) : bool :=
  if startsWith haystack needle then true
  else match haystack with
       | EmptyString => false
       | String _ rest => includes rest needle
       end.

(** The body of the loop of [lookForward], for the lines of the function
    that are still to be compared and the index [i] into [lines].  A
    line past the end of [lines] is [undefined], and calling [includes]
    on it is a [TypeError]. *)
Fixpoint lookForwardFrom (lines funcLines : list string) (i : nat) : Result bool :=
  match funcLines with
  | [] => Ok true
  | funcLine :: rest =>
      match lines !! i with
      | None => Throw (Error "Cannot read properties of undefined (reading 'includes')")
      | Some line =>
          if negb (includes line funcLine) then Ok false
          else lookForwardFrom lines rest (S i)
      end
  end.

Definition lookForward (lines funcLines : list string) (idx : nat) : Result bool :=
  lookForwardFrom lines funcLines idx.

(** [array[i] = x]: an index past the end extends the array, and the
    slots in between are empty. *)
Definition assign {A} (i : nat) (x : A) (array : list (option A)) : list (option A) :=
  if (i <? length array)%nat then <[i := Some x]> array
  else array ++ replicate (i - length array) None ++ [Some x].

(** The entry of a helper in the manifest, as [run] builds it: the
    names of the parameters (a parameter without description has none),
    their number, the example and the description. *)
Record HelperInfo := {
  args : list (option string);
  numArgs : nat;
  example : option string;
  description : string
}.

Definition set_args (a : list (option string)) (obj : HelperInfo) : HelperInfo :=
  {| args := a; numArgs := numArgs obj; example := example obj;
     description := description obj |}.

Definition set_description (d : string) (obj : HelperInfo) : HelperInfo :=
  {| args := args obj; numArgs := numArgs obj; example := example obj;
     description := d |}.

(** [args] is [obj.args] itself, so the two assignments change [obj]. *)
Definition fixSpecialCases (name : string) (obj : HelperInfo) : HelperInfo :=
  let obj :=
    if String.eqb name "ifNth"
    then set_args (assign 1 "b" (assign 0 "a" (args obj))) obj
    else obj in
  let obj :=
    if String.eqb name "eachIndex"
    then set_description "Iterates the array, listing an item and the index of it." obj
    else obj in
  let obj :=
    if String.eqb name "toFloat"
    then set_description "Convert input to a float." obj
    else obj in
  let obj :=
    if String.eqb name "toInt"
    then set_description "Convert input to an integer." obj
    else obj in
  obj.

(** The lines of a helper file and of the text of a helper. *)
Definition sampleFile : list string :=
  ["/**"; " * Return the sum of a and b."; " */";
   "helpers.add = function(a, b) {"; "  return a + b;"; "};"].

Definition sampleFunction : list string :=
  ["function(a, b) {"; "  return a + b;"; "}"].

Definition sampleInfo : HelperInfo :=
  {| args := [Some "n"]; numArgs := 1; example := None;
     description := "Conditionally render a block." |}.

End Manifest.
(** * Properties *)

Lemma truthy_Some (o : option string) :
  truthy o = true ↔ ∃ s, o = Some s ∧ s ≠ "".
Proof.
  destruct o as [s|]; simpl.
  - rewrite negb_true_iff, String.eqb_neq. split.
    + intros Hs. exists s. auto.
    + intros (s' & Heq & Hs). congruence.
  - split; [discriminate | intros (s & Heq & _); discriminate].
Qed.

Lemma ifTruthy_true {A} (o : option string) (s : string) (yes : string → A) (no : A) :
  o = Some s → s ≠ "" → ifTruthy o yes no = yes s.
Proof.
  intros -> Hs. unfold ifTruthy.
  apply String.eqb_neq in Hs. by rewrite Hs.
Qed.

Lemma ifTruthy_false {A} (o : option string) (yes : string → A) (no : A) :
  truthy o = false → ifTruthy o yes no = no.
Proof.
  destruct o as [s|]; simpl; [|done].
  rewrite negb_false_iff. by intros ->.
Qed.

Ltac run_promise :=
  unfold getUniqueTenantId, doInTenant, withCache, getTenantId, getGlobalDB,
    getScopedFullConfig, put, newid, modify, gets, mbind, mret, M_bind, M_ret;
  simpl.

Lemma getUniqueTenantId_hit (tenant : string) (w : World) (v : string) :
  cachedId w tenant = Some v →
  getUniqueTenantId tenant w = (Ok v, afterHit tenant w).
Proof.
  unfold cachedId, cacheLookup. intros Hhit. run_promise.
  unfold cacheLookup. simpl. destruct w; simpl in *.
  destruct (_ !! _) as [e|]; [|discriminate].
  destruct (_ <? _); [|discriminate].
  by injection Hhit as ->.
Qed.

Lemma getUniqueTenantId_read (tenant : string) (w : World) (v : string) :
  cachedId w tenant = None →
  persistedId w tenant = Some v → v ≠ "" →
  getUniqueTenantId tenant w = (Ok v, afterRead tenant v w).
Proof.
  unfold cachedId, persistedId. intros Hmiss Hdoc Hv. run_promise.
  replace (cacheLookup tenant CacheKeys.UNIQUE_TENANT_ID (with_tenantContext tenant w))
    with (@None string) by (by rewrite <- Hmiss).
  simpl. rewrite (ifTruthy_true _ v) by done.
  by destruct w.
Qed.

Lemma getUniqueTenantId_mint (tenant : string) (w : World) :
  cachedId w tenant = None →
  truthy (persistedId w tenant) = false →
  getUniqueTenantId tenant w = (Ok (mintedId w tenant), afterMint tenant w).
Proof.
  unfold cachedId, persistedId. intros Hmiss Hdoc. run_promise.
  replace (cacheLookup tenant CacheKeys.UNIQUE_TENANT_ID (with_tenantContext tenant w))
    with (@None string) by (by rewrite <- Hmiss).
  simpl. rewrite ifTruthy_false by done.
  by destruct w.
Qed.

Lemma getUniqueTenantId_run (tenant : string) (w : World) :
  UniqueTenantIdRun tenant w
    (fst (getUniqueTenantId tenant w)) (snd (getUniqueTenantId tenant w)).
Proof.
  destruct (cachedId w tenant) as [v|] eqn:Hc.
  - rewrite (getUniqueTenantId_hit _ _ v) by done. by apply RunHit.
  - destruct (truthy (persistedId w tenant)) eqn:Ht.
    + apply truthy_Some in Ht as (v & Hv & Hne).
      rewrite (getUniqueTenantId_read _ _ v) by done. by apply RunRead.
    + rewrite getUniqueTenantId_mint by done. by apply RunMint.
Qed.

(** ** The cache and the store *)

Lemma mintedId_nonempty (w : World) (tenant : string) : mintedId w tenant ≠ "".
Proof. unfold mintedId. by destruct (entropy w (drawn w)). Qed.

Lemma cachedId_insert (w : World) (tenant v : string) (c : gmap (string * string) CacheEntry) :
  cache w = <[(tenant, CacheKeys.UNIQUE_TENANT_ID) := cacheEntry (with_cache ∅ w) v]> c →
  cachedId w tenant = Some v.
Proof.
  unfold cachedId, cacheLookup. intros ->. rewrite lookup_insert_eq. simpl.
  unfold TTL.ONE_DAY. destruct (Z.ltb_spec (clock w) (clock w + 86400)); [done | lia].
Qed.

Lemma cachedId_insert_ne (w : World) (tenant other v : string)
    (c : gmap (string * string) CacheEntry) (e : CacheEntry) :
  other ≠ tenant →
  cache w = <[(tenant, CacheKeys.UNIQUE_TENANT_ID) := e]> c →
  cachedId w other = cachedId (with_cache c w) other.
Proof.
  unfold cachedId, cacheLookup. intros Hne ->. simpl.
  rewrite lookup_insert_ne; [done | congruence].
Qed.

(** After any run the cache holds the returned id. *)
Lemma run_cached (tenant : string) (w : World) (r : Result string) (w' : World) :
  UniqueTenantIdRun tenant w r w' → ∃ v, r = Ok v ∧ cachedId w' tenant = Some v.
Proof.
  intros [v Hhit | v Hmiss Hdoc Hv | Hmiss Hdoc].
  - exists v. split; [done|]. by destruct w.
  - exists v. split; [done|]. by eapply cachedId_insert.
  - exists (mintedId w tenant). split; [done|]. by eapply cachedId_insert.
Qed.

(** A process that has just started has an empty cache, which agrees
    with every document. *)
Lemma cacheAgrees_restart (w : World) (tenant : string) :
  cacheAgrees (with_cache ∅ w) tenant.
Proof. intros v. unfold cachedId, cacheLookup. simpl. by rewrite lookup_empty. Qed.

(** [getUniqueTenantId] keeps cache and documents in agreement. *)
Lemma cacheAgrees_preserved (tenant other : string) (w : World) :
  cacheAgrees w other →
  cacheAgrees (snd (getUniqueTenantId tenant w)) other.
Proof.
  intros Hagree.
  destruct (getUniqueTenantId_run tenant w) as [v Hhit | v Hmiss Hdoc Hv | Hmiss Hdoc].
  - intros u Hu. apply Hagree. by destruct w.
  - destruct (decide (other = tenant)) as [->|Hne].
    + intros u Hu. rewrite (cachedId_insert _ _ v (cache w)) in Hu by done.
      injection Hu as <-. done.
    + intros u Hu. rewrite (cachedId_insert_ne _ tenant other v (cache w) (cacheEntry w v)) in Hu by done.
      apply Hagree. by destruct w.
  - destruct (decide (other = tenant)) as [->|Hne].
    + intros u Hu.
      rewrite (cachedId_insert _ _ (mintedId w tenant) (cache w)) in Hu by done.
      injection Hu as <-. split; [|apply mintedId_nonempty].
      unfold persistedId, afterMint. simpl. by rewrite String.eqb_refl.
    + intros u Hu.
      rewrite (cachedId_insert_ne _ tenant other (mintedId w tenant) (cache w)
                 (cacheEntry w (mintedId w tenant))) in Hu by done.
      destruct (Hagree u) as [Hp Hne']; [by destruct w|].
      split; [|done]. unfold persistedId, afterMint. simpl.
      apply String.eqb_neq in Hne. by rewrite Hne.
Qed.

Lemma puts_snoc (calls : list Effect) (e : Effect) :
  puts (calls ++ [e]) =
  puts calls ++ match e with DbPut t doc => [(t, doc)] | _ => [] end.
Proof. unfold puts. rewrite omap_app. by destruct e. Qed.

Lemma getUniqueTenantId_restart (tenant : string) (w : World) (v : string) :
  persistedId w tenant = Some v → v ≠ "" →
  getUniqueTenantId tenant (with_cache ∅ w) =
  (Ok v, afterRead tenant v (with_cache ∅ w)).
Proof.
  intros Hdoc Hv. apply getUniqueTenantId_read; [|done..].
  unfold cachedId, cacheLookup. simpl. by rewrite lookup_empty.
Qed.

Lemma truthy_false_Some (o : option string) (v : string) :
  truthy o = false → o = Some v → v ≠ "" → False.
Proof.
  intros Hf -> Hv. simpl in Hf. apply negb_false_iff, String.eqb_eq in Hf. done.
Qed.

(** ** The unique tenant id *)

(** C1.  In a world whose cache agrees with the documents,
    [getUniqueTenantId tenant] returns the [uniqueTenantId] of the
    tenant's settings document when that field is set, and writes
    nothing.  When the field is unset it returns the id that [newid]
    hands out, an underscore and the tenant id, and that very string is
    the persisted field when it returns.  Either way the id it returns is the persisted
    one, and a process restarted with an empty cache derives the same id
    again without writing the document. *)
Theorem getUniqueTenantId_persisted (tenant : string) (w : World) :
  cacheAgrees w tenant →
  let r := fst (getUniqueTenantId tenant w) in
  let w' := snd (getUniqueTenantId tenant w) in
  (∀ v, persistedId w tenant = Some v → v ≠ "" →
     r = Ok v ∧ globalDB w' = globalDB w ∧ puts (trace w') = puts (trace w)) ∧
  (truthy (persistedId w tenant) = false →
     ∃ randomId,
       fst (newid w) = Ok randomId ∧ drawn w' = S (drawn w) ∧
       r = Ok (randomId +:+ "_" +:+ tenant) ∧
       persistedId w' tenant = Some (randomId +:+ "_" +:+ tenant)) ∧
  (∃ v, r = Ok v ∧ persistedId w' tenant = Some v ∧
     let restarted := getUniqueTenantId tenant (with_cache ∅ w') in
     fst restarted = Ok v ∧
     globalDB (snd restarted) = globalDB w' ∧
     puts (trace (snd restarted)) = puts (trace w')).
Proof.
  intros Hagree. cbv zeta.
  destruct (getUniqueTenantId_run tenant w) as [v Hhit | v Hmiss Hdoc Hv | Hmiss Hdoc].
  - destruct (Hagree v Hhit) as [Hdoc Hv].
    assert (Hsame : persistedId (afterHit tenant w) tenant = Some v) by done.
    split; [|split].
    + intros u Hu _. rewrite Hdoc in Hu. injection Hu as <-.
      split; [done|]. split; [done|].
      unfold afterHit, emit. simpl. rewrite puts_snoc. apply app_nil_r.
    + intros Hunset. destruct (truthy_false_Some _ v Hunset Hdoc Hv).
    + exists v. split; [done|]. split; [done|].
      rewrite (getUniqueTenantId_restart _ _ v) by done.
      split; [done|]. split; [done|].
      unfold afterRead. simpl. by rewrite !puts_snoc, !app_nil_r.
  - assert (Hsame : persistedId (afterRead tenant v w) tenant = Some v) by done.
    split; [|split].
    + intros u Hu _. rewrite Hdoc in Hu. injection Hu as <-.
      split; [done|]. split; [done|].
      unfold afterRead. simpl. by rewrite !puts_snoc, !app_nil_r.
    + intros Hunset. destruct (truthy_false_Some _ v Hunset Hdoc Hv).
    + exists v. split; [done|]. split; [done|].
      rewrite (getUniqueTenantId_restart _ _ v) by done.
      split; [done|]. split; [done|].
      unfold afterRead. simpl. by rewrite !puts_snoc, !app_nil_r.
  - assert (Hsame : persistedId (afterMint tenant w) tenant = Some (mintedId w tenant)).
    { unfold persistedId, afterMint. simpl. by rewrite String.eqb_refl. }
    split; [|split].
    + intros u Hu Hne. destruct (truthy_false_Some _ u Hdoc Hu Hne).
    + intros _. by exists (entropy w (drawn w)).
    + exists (mintedId w tenant). split; [done|]. split; [done|].
      rewrite (getUniqueTenantId_restart _ _ (mintedId w tenant))
        by (done || apply mintedId_nonempty).
      split; [done|]. split; [done|].
      unfold afterRead. simpl. by rewrite !puts_snoc, !app_nil_r.
Qed.

(** The theorem at a deployment that has just started: the tenant
    [acme] keeps its id, the tenant [globex] gets a new one. *)
Lemma getUniqueTenantId_persisted_witness :
  (cacheAgrees Sample.selfHosted "acme" ∧
   fst (getUniqueTenantId "acme" Sample.selfHosted) = Ok "7f3a_acme") ∧
  (cacheAgrees Sample.selfHosted "globex" ∧
   truthy (persistedId Sample.selfHosted "globex") = false ∧
   fst (getUniqueTenantId "globex" Sample.selfHosted) = Ok "c0ffee_globex" ∧
   persistedId (snd (getUniqueTenantId "globex" Sample.selfHosted)) "globex"
     = Some "c0ffee_globex").
Proof.
  assert (Hacme : cacheAgrees Sample.selfHosted "acme").
  { intros v Hv. vm_compute in Hv. discriminate Hv. }
  assert (Hglobex : cacheAgrees Sample.selfHosted "globex").
  { intros v Hv. vm_compute in Hv. discriminate Hv. }
  split; split; try assumption.
  - apply (getUniqueTenantId_persisted "acme" Sample.selfHosted Hacme).
    + reflexivity.
    + discriminate.
  - split; [reflexivity|].
    destruct (proj1 (proj2 (getUniqueTenantId_persisted "globex" Sample.selfHosted Hglobex)))
      as (randomId & Hid & _ & Hr & Hdoc); [reflexivity|].
    injection Hid as <-. by split.
Defined.

(** C9.  Two calls of [getUniqueTenantId] in immediate succession, with
    nothing happening in between and the clock standing still, return
    the same id, and the second call writes nothing.  The same holds of
    [getEventTenantId], under either hosting mode. *)
Theorem getUniqueTenantId_twice (tenant : string) (w : World) :
  (let first := getUniqueTenantId tenant w in
   let second := getUniqueTenantId tenant (snd first) in
   (∃ v, fst first = Ok v) ∧
   fst second = fst first ∧
   globalDB (snd second) = globalDB (snd first)) ∧
  (let first := getEventTenantId tenant w in
   let second := getEventTenantId tenant (snd first) in
   (∃ v, fst first = Ok v) ∧
   fst second = fst first ∧
   globalDB (snd second) = globalDB (snd first)).
Proof.
  assert (Hunique :
    let first := getUniqueTenantId tenant w in
    let second := getUniqueTenantId tenant (snd first) in
    (∃ v, fst first = Ok v) ∧
    fst second = fst first ∧
    globalDB (snd second) = globalDB (snd first)).
  { cbv zeta.
    destruct (run_cached _ _ _ _ (getUniqueTenantId_run tenant w)) as (v & Hr & Hc).
    rewrite (getUniqueTenantId_hit _ _ v Hc), Hr. simpl.
    split; [by exists v|]. split; [done|].
    by destruct (snd (getUniqueTenantId tenant w)). }
  split; [exact Hunique|].
  unfold getEventTenantId, gets, mbind, mret, M_bind, M_ret.
  destruct (Env.SELF_HOSTED (env w)) eqn:Hself.
  - assert (Henv : env (snd (getUniqueTenantId tenant w)) = env w).
    { by destruct (getUniqueTenantId_run tenant w); destruct w. }
    cbv zeta. rewrite Henv, Hself. exact Hunique.
  - simpl. rewrite Hself. simpl. split; [by exists tenant|done].
Qed.

(** C10.  A call of [getUniqueTenantId] writes at most one document.
    Either it writes nothing and the store is as before, or it writes
    the document of the tenant once: then the field read was unset, the
    document written is the document read but for [config.uniqueTenantId],
    and no other tenant's document changes.  When the field is set
    nothing is written. *)
Theorem getUniqueTenantId_frame (tenant : string) (w : World) :
  let w' := snd (getUniqueTenantId tenant w) in
  ∃ calls, trace w' = trace w ++ calls ∧
    ((puts calls = [] ∧ globalDB w' = globalDB w) ∨
     (∃ doc, puts calls = [(tenant, doc)] ∧
        truthy (persistedId w tenant) = false ∧
        SettingsConfig.properties doc = SettingsConfig.properties (globalDB w tenant) ∧
        settings (SettingsConfig.config doc) =
          settings (SettingsConfig.config (globalDB w tenant)) ∧
        uniqueTenantId (SettingsConfig.config doc) = Some (mintedId w tenant) ∧
        globalDB w' tenant = doc ∧
        ∀ other, other ≠ tenant → globalDB w' other = globalDB w other)) ∧
    (truthy (persistedId w tenant) = true →
       puts calls = [] ∧ globalDB w' = globalDB w).
Proof.
  cbv zeta.
  destruct (getUniqueTenantId_run tenant w) as [v Hhit | v Hmiss Hdoc Hv | Hmiss Hdoc].
  - exists [CacheGet tenant CacheKeys.UNIQUE_TENANT_ID].
    split; [done|]. split; [left|]; done.
  - exists [CacheGet tenant CacheKeys.UNIQUE_TENANT_ID; DbGet tenant;
            CacheStore tenant CacheKeys.UNIQUE_TENANT_ID v TTL.ONE_DAY].
    split; [|split; [left|]; done].
    unfold afterRead. simpl. by rewrite <- !app_assoc.
  - exists [CacheGet tenant CacheKeys.UNIQUE_TENANT_ID; DbGet tenant;
            DbPut tenant (set_uniqueTenantId (mintedId w tenant) (globalDB w tenant));
            CacheStore tenant CacheKeys.UNIQUE_TENANT_ID (mintedId w tenant) TTL.ONE_DAY].
    split; [|split].
    + unfold afterMint. simpl. by rewrite <- !app_assoc.
    + right. eexists. split; [reflexivity|].
      repeat split; try done.
      * unfold afterMint. simpl. by rewrite String.eqb_refl.
      * intros other Hne. unfold afterMint. simpl.
        apply String.eqb_neq in Hne. by rewrite Hne.
    + intros Hset. congruence.
Qed.

(** The theorem at a tenant whose id is set. *)
Lemma getUniqueTenantId_frame_witness :
  truthy (persistedId Sample.selfHosted "acme") = true ∧
  puts (trace (snd (getUniqueTenantId "acme" Sample.selfHosted))) = [].
Proof.
  split; [reflexivity|].
  destruct (getUniqueTenantId_frame "acme" Sample.selfHosted)
    as (calls & Htrace & _ & Hset).
  rewrite Htrace. apply Hset. reflexivity.
Defined.

(** C3.  In the cloud [getEventTenantId] returns its argument and
    leaves the world alone: no cache lookup, no read, no write. *)
Theorem getEventTenantId_cloud (tenantId : string) (w : World) :
  Env.SELF_HOSTED (env w) = false →
  getEventTenantId tenantId w = (Ok tenantId, w).
Proof.
  intros Hcloud.
  unfold getEventTenantId, gets, mbind, mret, M_bind, M_ret.
  by rewrite Hcloud.
Qed.

Lemma getEventTenantId_cloud_witness :
  Env.SELF_HOSTED (env Sample.cloud) = false ∧
  getEventTenantId "acme" Sample.cloud = (Ok "acme", Sample.cloud).
Proof.
  split; [reflexivity|].
  apply (getEventTenantId_cloud "acme" Sample.cloud). reflexivity.
Defined.

(** ** The current identity *)

Lemma sinkCalls_app (a b : list Effect) : sinkCalls (a ++ b) = sinkCalls a ++ sinkCalls b.
Proof. apply List.filter_app. Qed.

Lemma quiet_refl (w : World) : quiet w w.
Proof. repeat split. exists []. by rewrite app_nil_r. Qed.

Lemma getUniqueTenantId_quiet (tenant : string) (w : World) :
  quiet w (snd (getUniqueTenantId tenant w)).
Proof.
  destruct (getUniqueTenantId_run tenant w) as [v Hhit | v Hmiss Hdoc Hv | Hmiss Hdoc];
    repeat split.
  - by eexists [_].
  - eexists [_; _; _]. unfold afterRead. simpl. by rewrite <- !app_assoc.
  - eexists [_; _; _; _]. unfold afterMint. simpl. by rewrite <- !app_assoc.
Qed.

(** [getEventTenantId] returns an id, whatever the hosting mode. *)
Lemma getEventTenantId_quiet (tenantId : string) (w : World) :
  ∃ id w', getEventTenantId tenantId w = (Ok id, w') ∧ quiet w w'.
Proof.
  unfold getEventTenantId, gets, mbind, mret, M_bind, M_ret.
  destruct (Env.SELF_HOSTED (env w)).
  - pose proof (getUniqueTenantId_quiet tenantId w) as Hq.
    destruct (run_cached _ _ _ _ (getUniqueTenantId_run tenantId w)) as (v & Hr & _).
    destruct (getUniqueTenantId tenantId w) as [r w']. simpl in *. subst r.
    by exists v, w'.
  - exists tenantId, w. split; [done | apply quiet_refl].
Qed.

Lemma getInstallationId_eq (w : World) :
  getInstallationId w = (Ok (installationIdOf w), w).
Proof.
  unfold getInstallationId, isAccountPortal, getInstall, installationIdOf,
    gets, mbind, mret, M_bind, M_ret.
  by destruct (String.eqb _ _).
Qed.

Lemma quiet_hosting (w w' : World) : quiet w w' → hostingFromEnv w' = hostingFromEnv w.
Proof. intros (Henv & _). unfold hostingFromEnv. by rewrite Henv. Qed.

Lemma quiet_installationId (w w' : World) :
  quiet w w' → installationIdOf w' = installationIdOf w.
Proof. intros (Henv & _ & _ & Hinst & _). unfold installationIdOf. by rewrite Henv, Hinst. Qed.

Lemma getHostingFromEnv_eq (w : World) :
  getHostingFromEnv w = (Ok (hostingFromEnv w), w).
Proof. done. Qed.

Ltac run_identity :=
  unfold getTenantId, identify, identifyGroup, processors.identify,
    processors.identifyGroup, modify, gets, throw, mbind, mret, M_bind, M_ret;
  simpl.

(** C2.  Without an ambient identity context [getCurrentIdentity]
    returns a tenant identity: its kind is TENANT, its tenant id is the
    event tenant id of the ambient tenant, its id is that tenant id
    behind the prefix, its hosting is the one of the environment and its
    installation id is the one of the deployment. *)
Theorem getCurrentIdentity_default (w : World) :
  identityContext w = None →
  ∃ identity w' tenantId,
    getCurrentIdentity w = (Ok identity, w') ∧
    fst (getEventTenantId (tenantContext w) w) = Ok tenantId ∧
    identity !! "type" = Some (JStr IdentityType.TENANT) ∧
    identity !! "id" = Some (JStr ("$tenant_" +:+ tenantId)) ∧
    identity !! "hosting" = Some (JHosting (hostingFromEnv w)) ∧
    identity !! "installationId" = Some (JStr (installationIdOf w)) ∧
    identity !! "tenantId" = Some (JStr tenantId).
Proof.
  intros Hnone.
  destruct (getEventTenantId_quiet (tenantContext w) w) as (tid & w' & Hevent & Hq).
  unfold getCurrentIdentity, getIdentity. run_identity.
  rewrite Hnone. simpl. rewrite getInstallationId_eq, Hevent. simpl.
  eexists _, w', tid. split; [reflexivity|].
  destruct Hq as (Henv & _). rewrite Henv.
  repeat split.
Qed.

Lemma getCurrentIdentity_default_witness :
  identityContext Sample.selfHosted = None ∧
  ∃ identity w' tenantId,
    getCurrentIdentity Sample.selfHosted = (Ok identity, w') ∧
    fst (getEventTenantId "default" Sample.selfHosted) = Ok tenantId ∧
    identity !! "type" = Some (JStr IdentityType.TENANT) ∧
    identity !! "id" = Some (JStr ("$tenant_" +:+ tenantId)) ∧
    identity !! "hosting" = Some (JHosting SELF) ∧
    identity !! "installationId" = Some (JStr "install_1") ∧
    identity !! "tenantId" = Some (JStr tenantId).
Proof.
  split; [reflexivity|].
  apply (getCurrentIdentity_default Sample.selfHosted). reflexivity.
Defined.

(** C4.  With a kind that is none of INSTALLATION, TENANT and USER
    [getCurrentIdentity] throws [Error("Unknown identity type")]: the
    call returns the error and no identity, and nothing has happened to
    the world. *)
Theorem getCurrentIdentity_unknown (w : World) (ctx : IdentityContext.t) :
  identityContext w = Some ctx →
  IdentityContext.type ctx ≠ IdentityType.INSTALLATION →
  IdentityContext.type ctx ≠ IdentityType.TENANT →
  IdentityContext.type ctx ≠ IdentityType.USER →
  getCurrentIdentity w = (Throw (Error "Unknown identity type"), w).
Proof.
  intros Hctx Hi Ht Hu.
  apply String.eqb_neq in Hi, Ht, Hu.
  unfold getCurrentIdentity, getIdentity. run_identity.
  by rewrite Hctx, Hi, Ht, Hu.
Qed.

Lemma getCurrentIdentity_unknown_witness :
  getCurrentIdentity Sample.cloudRobot
  = (Throw (Error "Unknown identity type"), Sample.cloudRobot).
Proof.
  apply (getCurrentIdentity_unknown Sample.cloudRobot
           (IdentityContext.mk "robot" (Some "us_1") None));
    [reflexivity | discriminate..].
Defined.

(** ** The identify calls *)

Lemma length_append (a b : string) :
  String.length (a +:+ b) = (String.length a + String.length b)%nat.
Proof. induction a as [|c a IH]; simpl; [done | by rewrite IH]. Qed.

(** A prefixed id is never the raw id. *)
Lemma prefixed_ne (kind raw : string) : "$" +:+ kind +:+ "_" +:+ raw ≠ raw.
Proof.
  intros Heq. apply (f_equal String.length) in Heq.
  rewrite !length_append in Heq. cbn [String.length] in Heq. lia.
Qed.

Lemma identifyInstallationGroup_run (installId : string) (ts : option Timestamp) (w : World) :
  ∃ group,
    identifyInstallationGroup installId ts w =
      (Ok tt, emit (Identify (<["id" := JStr ("$installation_" +:+ installId)]> group) ts)
                (emit (IdentifyGroup group ts) w)) ∧
    group !! "id" = Some (JStr installId) ∧
    group !! "type" = Some (JStr IdentityType.INSTALLATION).
Proof.
  unfold identifyInstallationGroup, getHostingFromEnv. run_identity.
  eexists. split; [reflexivity|]. by split.
Qed.

Lemma identifyTenantGroup_run (tenantId : string) (account : option Account.t)
    (ts : option Timestamp) (w : World) :
  ∃ id w1,
    getEventTenantId tenantId w = (Ok id, w1) ∧ quiet w w1 ∧
    identifyTenantGroup tenantId account ts w =
      (Ok tt, emit (Identify (<["id" := JStr ("$tenant_" +:+ id)]>
                                (tenantGroupOf id account w)) ts)
                (emit (IdentifyGroup (tenantGroupOf id account w) ts) w1)).
Proof.
  destruct (getEventTenantId_quiet tenantId w) as (id & w1 & Hevent & Hq).
  exists id, w1. split; [done|]. split; [done|].
  unfold identifyTenantGroup, mbind, M_bind.
  rewrite Hevent, getInstallationId_eq, (quiet_installationId _ _ Hq).
  destruct account as [a|]; [done|].
  by rewrite getHostingFromEnv_eq, (quiet_hosting _ _ Hq).
Qed.

Lemma identifyUser_run (user : User.t) (account : option Account.t)
    (ts : option Timestamp) (w : World) :
  ∃ tenantId w1 identity,
    getEventTenantId (User.tenantId user) w = (Ok tenantId, w1) ∧ quiet w w1 ∧
    identifyUser user account ts w = (Ok tt, emit (Identify identity ts) w1) ∧
    identity !! "id" = Some (optStr (User._id user)) ∧
    identity !! "type" = Some (JStr IdentityType.USER) ∧
    dom identity = {["id"; "type"; "hosting"; "installationId"; "tenantId";
                     "verified"; "accountHolder"; "providerType"; "builder"; "admin"]}.
Proof.
  destruct (getEventTenantId_quiet (User.tenantId user) w) as (tid & w1 & Hevent & Hq).
  exists tid, w1.
  unfold identifyUser, mbind, M_bind.
  rewrite Hevent, getInstallationId_eq.
  destruct account as [a|];
    (eexists; split; [done|]; split; [done|]; split; [reflexivity|];
     split; [done|]; split; [done|];
     unfold object; rewrite dom_list_to_map_L; simpl; set_solver).
Qed.

Lemma identifyAccount_run (account : Account.t) (w : World) :
  ∃ identity,
    identifyAccount account w = (Ok tt, emit (Identify identity None) w) ∧
    identity !! "id" =
      Some (JStr (if isCloudAccount account
                  then ifTruthy (Account.budibaseUserId account) id
                         (Account.accountId account)
                  else Account.accountId account)) ∧
    identity !! "type" = Some (JStr IdentityType.USER) ∧
    dom identity = {["id"; "type"; "hosting"; "installationId"; "tenantId";
                     "providerType"; "verified"; "accountHolder"]}.
Proof.
  unfold identifyAccount, mbind, M_bind.
  rewrite getInstallationId_eq.
  eexists. split; [reflexivity|]. split; [done|]. split; [done|].
  unfold object. rewrite dom_list_to_map_L. simpl. set_solver.
Qed.

(** Decide the comparisons of two known kinds. *)
Ltac eval_kinds :=
  repeat match goal with
    | |- context [String.eqb ?a ?b] =>
        let v := eval vm_compute in (String.eqb a b) in
        match v with true => idtac | false => idtac end;
        change (String.eqb a b) with v; cbv iota
    end;
  cbv beta.

Lemma currentKind_user (w : World) :
  currentKind w = IdentityType.USER →
  ∃ ctx, identityContext w = Some ctx ∧ IdentityContext.type ctx = IdentityType.USER.
Proof.
  unfold currentKind. destruct (identityContext w) as [ctx|]; [|discriminate].
  intros Hkind. by exists ctx.
Qed.

Lemma getCurrentIdentity_installation (w : World) :
  currentKind w = IdentityType.INSTALLATION →
  getCurrentIdentity w =
    (Ok (object [("id", JStr ("$installation_" +:+ installationIdOf w));
                 ("hosting", JHosting (hostingFromEnv w));
                 ("type", JStr IdentityType.INSTALLATION);
                 ("installationId", JStr (installationIdOf w))]), w).
Proof.
  intros Hkind.
  unfold getCurrentIdentity, getIdentity, gets, mbind, M_bind.
  fold (currentKind w). rewrite Hkind. eval_kinds.
  by rewrite getInstallationId_eq.
Qed.

Lemma getCurrentIdentity_tenant (w : World) :
  currentKind w = IdentityType.TENANT →
  ∃ tenantId w',
    getEventTenantId (tenantContext w) w = (Ok tenantId, w') ∧ quiet w w' ∧
    getCurrentIdentity w =
      (Ok (object [("id", JStr ("$tenant_" +:+ tenantId));
                   ("type", JStr IdentityType.TENANT);
                   ("hosting", JHosting (hostingFromEnv w));
                   ("installationId", JStr (installationIdOf w));
                   ("tenantId", JStr tenantId)]), w').
Proof.
  intros Hkind.
  destruct (getEventTenantId_quiet (tenantContext w) w) as (tid & w' & Hevent & Hq).
  exists tid, w'. split; [done|]. split; [done|].
  unfold getCurrentIdentity, getIdentity, getTenantId, gets, mbind, M_bind.
  fold (currentKind w). rewrite Hkind. eval_kinds.
  rewrite getInstallationId_eq, Hevent, getHostingFromEnv_eq.
  by rewrite (quiet_hosting _ _ Hq).
Qed.

Lemma getCurrentIdentity_user (w : World) (ctx : IdentityContext.t) :
  identityContext w = Some ctx →
  IdentityContext.type ctx = IdentityType.USER →
  ∃ tenantId w',
    getEventTenantId (tenantContext w) w = (Ok tenantId, w') ∧ quiet w w' ∧
    getCurrentIdentity w =
      (Ok (object [("id", optStr (IdentityContext._id ctx));
                   ("type", JStr IdentityType.USER);
                   ("hosting", JHosting
                      (match IdentityContext.account ctx with
                       | Some account => Account.hosting account
                       | None => hostingFromEnv w
                       end));
                   ("installationId", JStr (installationIdOf w));
                   ("tenantId", JStr tenantId)]), w').
Proof.
  intros Hctx Hkind.
  destruct (getEventTenantId_quiet (tenantContext w) w) as (tid & w' & Hevent & Hq).
  exists tid, w'. split; [done|]. split; [done|].
  unfold getCurrentIdentity, getIdentity, getTenantId, gets, mbind, M_bind.
  rewrite Hctx, Hkind. eval_kinds.
  rewrite Hevent, getInstallationId_eq, (quiet_installationId _ _ Hq).
  destruct (IdentityContext.account ctx) as [account|]; [done|].
  by rewrite getHostingFromEnv_eq, (quiet_hosting _ _ Hq).
Qed.

Lemma invariant_prefixed (kind raw : string) (identity : Obj) :
  kind = IdentityType.INSTALLATION ∨ kind = IdentityType.TENANT →
  identity !! "type" = Some (JStr kind) →
  identity !! "id" = Some (JStr ("$" +:+ kind +:+ "_" +:+ raw)) →
  distinctIdInvariant (JStr raw) identity.
Proof.
  intros Hkind Htype Hid. exists kind. split; [done|]. left.
  split; [done|]. exists raw. split; [done|]. split; [done|].
  rewrite Hid. intros [= Heq]. by apply prefixed_ne in Heq.
Qed.

Lemma invariant_raw (rawId : JsVal) (identity : Obj) :
  identity !! "type" = Some (JStr IdentityType.USER) →
  identity !! "id" = Some rawId →
  distinctIdInvariant rawId identity.
Proof. intros Htype Hid. exists IdentityType.USER. split; [done|]. by right. Qed.

(** C5.  Every identity the module produces has the [id] its kind asks
    for.  An identity of kind INSTALLATION or TENANT has the id "$", the
    kind, "_" and the raw id, which is never the raw id itself; an
    identity of kind USER has the raw id.  This is so of the identity
    that [getCurrentIdentity] returns for each of the three kinds, of the
    identities that [identifyInstallationGroup] and [identifyTenantGroup]
    hand to the EventSink next to the group, and of those of
    [identifyUser] and [identifyAccount]. *)
Theorem produced_identity_id :
  (∀ w,
     currentKind w = IdentityType.INSTALLATION ∨
     currentKind w = IdentityType.TENANT ∨
     currentKind w = IdentityType.USER →
     ∃ identity w',
       getCurrentIdentity w = (Ok identity, w') ∧
       identity !! "type" = Some (JStr (currentKind w)) ∧
       distinctIdInvariant (currentRawId w) identity) ∧
  (∀ installId ts w, ∃ group identity,
     identifyInstallationGroup installId ts w =
       (Ok tt, emit (Identify identity ts) (emit (IdentifyGroup group ts) w)) ∧
     distinctIdInvariant (JStr installId) identity) ∧
  (∀ tenantId account ts w, ∃ id w1 group identity,
     getEventTenantId tenantId w = (Ok id, w1) ∧
     identifyTenantGroup tenantId account ts w =
       (Ok tt, emit (Identify identity ts) (emit (IdentifyGroup group ts) w1)) ∧
     distinctIdInvariant (JStr id) identity) ∧
  (∀ user account ts w, ∃ w1 identity,
     identifyUser user account ts w = (Ok tt, emit (Identify identity ts) w1) ∧
     distinctIdInvariant (optStr (User._id user)) identity) ∧
  (∀ account w, ∃ identity,
     identifyAccount account w = (Ok tt, emit (Identify identity None) w) ∧
     (distinctIdInvariant (JStr (Account.accountId account)) identity ∨
      distinctIdInvariant (optStr (Account.budibaseUserId account)) identity)).
Proof.
  repeat apply conj.
  - intros w [Hkind | [Hkind | Hkind]].
    + rewrite (getCurrentIdentity_installation w Hkind). eexists _, w.
      split; [done|]. rewrite Hkind. split; [done|].
      unfold currentRawId. rewrite Hkind, getInstallationId_eq. simpl.
      apply (invariant_prefixed IdentityType.INSTALLATION); by auto.
    + destruct (getCurrentIdentity_tenant w Hkind) as (tid & w' & Hevent & _ & ->).
      eexists _, w'. split; [done|]. rewrite Hkind. split; [done|].
      unfold currentRawId. rewrite Hkind, Hevent. simpl.
      apply (invariant_prefixed IdentityType.TENANT); by auto.
    + destruct (currentKind_user w Hkind) as (ctx & Hctx & Htype).
      destruct (getCurrentIdentity_user w ctx Hctx Htype) as (tid & w' & _ & _ & ->).
      eexists _, w'. split; [done|]. rewrite Hkind. split; [done|].
      unfold currentRawId. rewrite Hkind, Hctx. simpl.
      by apply invariant_raw.
  - intros installId ts w.
    destruct (identifyInstallationGroup_run installId ts w) as (group & -> & Hid & Htype).
    eexists group, _. split; [done|].
    apply (invariant_prefixed IdentityType.INSTALLATION); [by auto | | ].
    + by rewrite lookup_insert_ne.
    + by rewrite lookup_insert_eq.
  - intros tenantId account ts w.
    destruct (identifyTenantGroup_run tenantId account ts w) as (id & w1 & Hevent & _ & ->).
    eexists id, w1, _, _. split; [done|]. split; [done|].
    apply (invariant_prefixed IdentityType.TENANT); by auto.
  - intros user account ts w.
    destruct (identifyUser_run user account ts w)
      as (tid & w1 & identity & _ & _ & -> & Hid & Htype & _).
    exists w1, identity. split; [done|]. by apply invariant_raw.
  - intros account w.
    destruct (identifyAccount_run account w) as (identity & -> & Hid & Htype & _).
    exists identity. split; [done|].
    destruct (isCloudAccount account); [|left; by apply invariant_raw].
    destruct (Account.budibaseUserId account) as [u|] eqn:Hu; simpl in Hid.
    + destruct (String.eqb u ""); [left | right]; by apply invariant_raw.
    + left. by apply invariant_raw.
Qed.

(** The theorem at a request of the user [us_1]. *)
Lemma produced_identity_id_witness :
  currentKind Sample.cloudUser = IdentityType.USER ∧
  ∃ identity w',
    getCurrentIdentity Sample.cloudUser = (Ok identity, w') ∧
    identity !! "type" = Some (JStr IdentityType.USER) ∧
    distinctIdInvariant (JStr "us_1") identity.
Proof.
  split; [reflexivity|].
  apply (proj1 produced_identity_id Sample.cloudUser).
  right. right. reflexivity.
Defined.

(** C6.  [identifyTenantGroup] makes two calls to the EventSink and no
    more: first [identifyGroup] with the group record, whose id is the
    raw event tenant id, then [identify] with a record whose id is that
    id behind the prefix and whose hosting, company size and profession
    are those of the group record, which come from the account when
    there is one. *)
Theorem identifyTenantGroup_calls (tenantId : string) (account : option Account.t)
    (ts : option Timestamp) (w : World) :
  ∃ id group identity calls,
    fst (getEventTenantId tenantId w) = Ok id ∧
    fst (identifyTenantGroup tenantId account ts w) = Ok tt ∧
    trace (snd (identifyTenantGroup tenantId account ts w)) = trace w ++ calls ∧
    sinkCalls calls = [IdentifyGroup group ts; Identify identity ts] ∧
    group !! "id" = Some (JStr id) ∧
    identity !! "id" = Some (JStr ("$tenant_" +:+ id)) ∧
    identity !! "hosting" = group !! "hosting" ∧
    identity !! "companySize" = group !! "companySize" ∧
    identity !! "profession" = group !! "profession" ∧
    group !! "hosting" =
      Some (JHosting (match account with
                      | Some a => Account.hosting a
                      | None => hostingFromEnv w
                      end)) ∧
    group !! "companySize" = Some (optStr (account ≫= Account.size)) ∧
    group !! "profession" = Some (optStr (account ≫= Account.profession)).
Proof.
  destruct (identifyTenantGroup_run tenantId account ts w)
    as (id & w1 & Hevent & Hq & ->).
  destruct Hq as (_ & _ & _ & _ & calls & Htrace & Hsink).
  exists id, (tenantGroupOf id account w),
    (<["id" := JStr ("$tenant_" +:+ id)]> (tenantGroupOf id account w)),
    (calls ++ [IdentifyGroup (tenantGroupOf id account w) ts;
               Identify (<["id" := JStr ("$tenant_" +:+ id)]>
                           (tenantGroupOf id account w)) ts]).
  rewrite Hevent. split; [done|]. split; [done|]. split.
  { simpl. rewrite Htrace. by rewrite <- !app_assoc. }
  split.
  { rewrite sinkCalls_app, Hsink. done. }
  repeat split.
Qed.

(** ** Accounts and users *)

(** A self-hosted account with a [budibaseUserId] is identified by its
    account id: the claim C7 fails without the guard on the hosting. *)
Lemma usesBudibaseUserId_selfHost_fails :
  ¬ usesBudibaseUserId Sample.selfHostAccount Sample.cloud.
Proof.
  intros Hclaim.
  destruct (Hclaim "us_1") as (identity & Htrace & Hid); [reflexivity | discriminate |].
  vm_compute in Htrace. injection Htrace as <-.
  vm_compute in Hid. discriminate Hid.
Qed.

(** C7, amended.  For a cloud account whose [budibaseUserId] is set,
    the identity that [identifyAccount] hands to the EventSink has that
    id, not the account id. *)
Theorem identifyAccount_cloud_budibaseUserId (account : Account.t) (w : World) :
  isCloudAccount account = true →
  usesBudibaseUserId account w.
Proof.
  intros Hcloud u Hu Hne.
  destruct (identifyAccount_run account w) as (identity & -> & Hid & _).
  exists identity. split; [done|].
  by rewrite Hid, Hcloud, (ifTruthy_true _ u).
Qed.

Lemma identifyAccount_cloud_budibaseUserId_witness :
  isCloudAccount Sample.cloudAccount = true ∧
  usesBudibaseUserId Sample.cloudAccount Sample.cloud.
Proof.
  split; [reflexivity|].
  apply (identifyAccount_cloud_budibaseUserId Sample.cloudAccount Sample.cloud).
  reflexivity.
Defined.

(** The identity that [getCurrentIdentity] returns for a user has no
    [verified] field: the claim C8 fails on it. *)
Lemma getCurrentIdentity_user_not_UserIdentity :
  ∃ identity,
    fst (getCurrentIdentity Sample.cloudUser) = Ok identity ∧
    identity !! "type" = Some (JStr IdentityType.USER) ∧
    identity !! "verified" = None ∧
    ¬ conformsToUserIdentity identity.
Proof.
  exists (object [("id", JStr "us_1"); ("type", JStr "user");
                  ("hosting", JHosting CLOUD);
                  ("installationId", JStr "install_1");
                  ("tenantId", JStr "acme")]).
  split; [by vm_compute|]. split; [reflexivity|]. split; [reflexivity|].
  intros [_ Hfields].
  assert (Hin : "verified" ∈ ({["id"; "hosting"; "installationId"; "tenantId";
     "verified"; "accountHolder"; "builder"; "admin"]} : gset string)) by set_solver.
  apply Hfields, elem_of_dom in Hin as [v Hv]. discriminate Hv.
Qed.

(** C8, amended.  The user identity that [identifyUser] hands to the
    EventSink has the [UserIdentity] shape: it carries [verified],
    [accountHolder], [builder], [admin] and [providerType] next to [id],
    [type], [hosting], [installationId] and [tenantId].  The one of
    [identifyAccount] carries [verified], [accountHolder] and
    [providerType], and neither [builder] nor [admin].  The one that
    [getCurrentIdentity] returns for a user carries [id], [type],
    [hosting], [installationId] and [tenantId] only. *)
Theorem user_identity_fields :
  (∀ user account ts w, ∃ w1 identity,
     identifyUser user account ts w = (Ok tt, emit (Identify identity ts) w1) ∧
     conformsToUserIdentity identity ∧
     dom identity = {["id"; "type"; "hosting"; "installationId"; "tenantId";
                      "verified"; "accountHolder"; "providerType";
                      "builder"; "admin"]}) ∧
  (∀ account w, ∃ identity,
     identifyAccount account w = (Ok tt, emit (Identify identity None) w) ∧
     identity !! "type" = Some (JStr IdentityType.USER) ∧
     dom identity = {["id"; "type"; "hosting"; "installationId"; "tenantId";
                      "providerType"; "verified"; "accountHolder"]}) ∧
  (∀ w, currentKind w = IdentityType.USER →
     ∃ identity w',
       getCurrentIdentity w = (Ok identity, w') ∧
       identity !! "type" = Some (JStr IdentityType.USER) ∧
       dom identity = {["id"; "type"; "hosting"; "installationId"; "tenantId"]}).
Proof.
  repeat apply conj.
  - intros user account ts w.
    destruct (identifyUser_run user account ts w)
      as (tid & w1 & identity & _ & _ & -> & _ & Htype & Hdom).
    exists w1, identity. split; [done|]. split; [|done].
    split; [done|]. rewrite Hdom.
    intros x. rewrite !elem_of_union, !elem_of_singleton. tauto.
  - intros account w.
    destruct (identifyAccount_run account w) as (identity & -> & _ & Htype & Hdom).
    by exists identity.
  - intros w Hkind.
    destruct (currentKind_user w Hkind) as (ctx & Hctx & Htype).
    destruct (getCurrentIdentity_user w ctx Hctx Htype) as (tid & w' & _ & _ & ->).
    eexists _, w'. split; [done|]. split; [done|].
    unfold object. rewrite dom_list_to_map_L. simpl. set_solver.
Qed.

(** The theorem at a request of the user [us_1]. *)
Lemma user_identity_fields_witness :
  currentKind Sample.cloudUser = IdentityType.USER ∧
  ∃ identity w',
    getCurrentIdentity Sample.cloudUser = (Ok identity, w') ∧
    identity !! "type" = Some (JStr IdentityType.USER) ∧
    dom identity = {["id"; "type"; "hosting"; "installationId"; "tenantId"]}.
Proof.
  split; [reflexivity|].
  apply (proj2 (proj2 user_identity_fields) Sample.cloudUser).
  reflexivity.
Defined.

(** * Further properties *)

(** ** Distinct ids *)

Lemma append_inj_r (p a b : string) : p +:+ a = p +:+ b → a = b.
Proof. induction p as [|c p IH]; simpl; [done|]. intros [= Heq]. by apply IH. Qed.

(** X1.  For one kind, [formatDistinctId] sends different raw ids to
    different distinct ids. *)
Theorem formatDistinctId_inj (kind a b : string) :
  formatDistinctId a kind = formatDistinctId b kind → a = b.
Proof.
  unfold formatDistinctId.
  destruct (String.eqb kind IdentityType.INSTALLATION || String.eqb kind IdentityType.TENANT);
    [|done].
  intros Heq. apply (append_inj_r "$"), (append_inj_r kind), (append_inj_r "_") in Heq.
  done.
Qed.

Lemma formatDistinctId_inj_witness :
  formatDistinctId "acme" IdentityType.TENANT = formatDistinctId "acme" IdentityType.TENANT ∧
  "acme" = "acme".
Proof.
  split; [reflexivity|].
  apply (formatDistinctId_inj IdentityType.TENANT "acme" "acme"). reflexivity.
Defined.

(** X2.  [formatDistinctId] returns the id it was given exactly when
    the kind is neither INSTALLATION nor TENANT. *)
Theorem formatDistinctId_unchanged (id kind : string) :
  formatDistinctId id kind = id ↔
  kind ≠ IdentityType.INSTALLATION ∧ kind ≠ IdentityType.TENANT.
Proof.
  unfold formatDistinctId. split.
  - intros Heq. split; intros ->.
    + by apply prefixed_ne in Heq.
    + by apply prefixed_ne in Heq.
  - intros [Hi Ht]. apply String.eqb_neq in Hi, Ht. by rewrite Hi, Ht.
Qed.

(** X3.  The distinct id of an installation is never the distinct id of
    a tenant, whatever the raw ids. *)
Theorem formatDistinctId_kinds_apart (a b : string) :
  formatDistinctId a IdentityType.INSTALLATION ≠ formatDistinctId b IdentityType.TENANT.
Proof. intros Heq. vm_compute in Heq. discriminate Heq. Qed.

(** ** Unique tenant ids *)

Lemma join_inj (id1 id2 t1 t2 : string) :
  hasUnderscore id1 = false → hasUnderscore id2 = false →
  id1 +:+ "_" +:+ t1 = id2 +:+ "_" +:+ t2 → id1 = id2 ∧ t1 = t2.
Proof.
  revert id2. induction id1 as [|c id1 IH]; intros [|d id2] H1 H2 Heq;
    cbn in H1, H2, Heq; injection Heq as Heq'; subst.
  - done.
  - discriminate H2.
  - discriminate H1.
  - apply orb_false_iff in H1 as [_ H1], H2 as [_ H2].
    destruct (IH id2 H1 H2 H) as [-> ->]. done.
Qed.

(** X4.  Two first derivations, in any two deployments, give the same
    unique tenant id only if the random ids and the tenant ids are the
    same, as long as the random ids have no underscore: tenants with
    the same name in two deployments are told apart by their random
    ids. *)
Theorem getUniqueTenantId_no_collision (w1 w2 : World) (t1 t2 id1 id2 : string) :
  cachedId w1 t1 = None → truthy (persistedId w1 t1) = false →
  cachedId w2 t2 = None → truthy (persistedId w2 t2) = false →
  fst (newid w1) = Ok id1 → hasUnderscore id1 = false →
  fst (newid w2) = Ok id2 → hasUnderscore id2 = false →
  fst (getUniqueTenantId t1 w1) = fst (getUniqueTenantId t2 w2) →
  id1 = id2 ∧ t1 = t2.
Proof.
  intros Hc1 Hp1 Hc2 Hp2 [= <-] Hu1 [= <-] Hu2.
  rewrite (getUniqueTenantId_mint _ _ Hc1 Hp1), (getUniqueTenantId_mint _ _ Hc2 Hp2).
  intros [= Heq]. by apply join_inj.
Qed.

Lemma getUniqueTenantId_no_collision_witness :
  fst (getUniqueTenantId "globex" Sample.selfHosted)
    = fst (getUniqueTenantId "globex" Sample.selfHosted) ∧
  "c0ffee" = "c0ffee" ∧ "globex" = "globex".
Proof.
  split; [reflexivity|].
  apply (getUniqueTenantId_no_collision Sample.selfHosted Sample.selfHosted
           "globex" "globex" "c0ffee" "c0ffee"); reflexivity.
Defined.

(** X5.  [getUniqueTenantId] works in the scope of the tenant it is
    given, not of the caller: whatever tenant is active when it is
    called, it returns the same id and does the same to the store and
    the cache, and the caller's tenant is active again afterwards. *)
Theorem getUniqueTenantId_ambient (tenant ambient : string) (w : World) :
  getUniqueTenantId tenant (with_tenantContext ambient w) =
    (fst (getUniqueTenantId tenant w),
     with_tenantContext ambient (snd (getUniqueTenantId tenant w))) ∧
  tenantContext (snd (getUniqueTenantId tenant w)) = tenantContext w.
Proof.
  unfold getUniqueTenantId, doInTenant.
  change (with_tenantContext tenant (with_tenantContext ambient w))
    with (with_tenantContext tenant w).
  by destruct (withCache _ _ _ (with_tenantContext tenant w)) as [r w'].
Qed.

(** X6.  A derivation for one tenant leaves the persisted id and the
    cache entry of every other tenant as they were. *)
Theorem getUniqueTenantId_isolation (tenant other : string) (w : World) :
  other ≠ tenant →
  persistedId (snd (getUniqueTenantId tenant w)) other = persistedId w other ∧
  cachedId (snd (getUniqueTenantId tenant w)) other = cachedId w other.
Proof.
  intros Hne.
  destruct (getUniqueTenantId_run tenant w) as [v Hhit | v Hmiss Hdoc Hv | Hmiss Hdoc].
  - by destruct w.
  - split; [done|].
    rewrite (cachedId_insert_ne _ tenant other v (cache w) (cacheEntry w v)) by done.
    by destruct w.
  - split.
    + unfold persistedId, afterMint. simpl.
      apply String.eqb_neq in Hne. by rewrite Hne.
    + rewrite (cachedId_insert_ne _ tenant other (mintedId w tenant) (cache w)
                 (cacheEntry w (mintedId w tenant))) by done.
      by destruct w.
Qed.

Lemma getUniqueTenantId_isolation_witness :
  "acme" ≠ "globex" ∧
  persistedId (snd (getUniqueTenantId "globex" Sample.selfHosted)) "acme"
    = Some "7f3a_acme".
Proof.
  split; [discriminate|].
  destruct (getUniqueTenantId_isolation "globex" "acme" Sample.selfHosted) as [Hdoc _];
    [discriminate|].
  rewrite Hdoc. reflexivity.
Defined.

(** X7.  Once the unique id of a tenant is persisted, no derivation
    changes it, for that tenant or another, whatever the cache holds. *)
Theorem getUniqueTenantId_keeps_persisted (tenant other : string) (w : World) (v : string) :
  persistedId w other = Some v → v ≠ "" →
  persistedId (snd (getUniqueTenantId tenant w)) other = Some v.
Proof.
  intros Hdoc Hv.
  destruct (getUniqueTenantId_run tenant w) as [u Hhit | u Hmiss Hu Hne | Hmiss Hunset];
    [done | done |].
  unfold persistedId, afterMint. simpl.
  destruct (String.eqb_spec other tenant) as [->|Hne]; [|done].
  destruct (truthy_false_Some _ v Hunset Hdoc Hv).
Qed.

Lemma getUniqueTenantId_keeps_persisted_witness :
  persistedId Sample.selfHosted "acme" = Some "7f3a_acme" ∧
  persistedId (snd (getUniqueTenantId "acme" Sample.selfHosted)) "acme"
    = Some "7f3a_acme".
Proof.
  split; [reflexivity|].
  apply (getUniqueTenantId_keeps_persisted "acme" "acme" Sample.selfHosted "7f3a_acme");
    [reflexivity | discriminate].
Defined.

Lemma cachedId_later (w : World) (tenant v : string) (c : gmap (string * string) CacheEntry)
    (time : Z) :
  cache w = <[(tenant, CacheKeys.UNIQUE_TENANT_ID) := cacheEntry (with_clock time w) v]> c →
  ∀ d, cachedId (with_clock (time + d) w) tenant =
       if d <? TTL.ONE_DAY then Some v else None.
Proof.
  intros Hc d. unfold cachedId, cacheLookup. simpl. rewrite Hc, lookup_insert_eq. simpl.
  destruct (Z.ltb_spec (time + d) (time + TTL.ONE_DAY)), (Z.ltb_spec d TTL.ONE_DAY);
    (done || lia).
Qed.

(** X8.  The id that a derivation reads or mints stays in the cache for
    one day: a second derivation less than 86400 seconds later returns
    the same id after a single cache lookup, without reading or writing
    the store. *)
Theorem getUniqueTenantId_within_ttl (tenant : string) (w : World) (d : Z) :
  cachedId w tenant = None →
  d < TTL.ONE_DAY →
  let first := getUniqueTenantId tenant w in
  let later := with_clock (clock w + d) (snd first) in
  fst (getUniqueTenantId tenant later) = fst first ∧
  trace (snd (getUniqueTenantId tenant later)) =
    trace later ++ [CacheGet tenant CacheKeys.UNIQUE_TENANT_ID] ∧
  globalDB (snd (getUniqueTenantId tenant later)) = globalDB (snd first).
Proof.
  intros Hmiss Hd. cbv zeta.
  apply Z.ltb_lt in Hd.
  destruct (getUniqueTenantId_run tenant w) as [v Hhit | v _ Hdoc Hv | _ Hdoc];
    [congruence | |].
  - pose proof (cachedId_later (afterRead tenant v w) tenant v (cache w) (clock w)
                  eq_refl d) as Hlater.
    rewrite Hd in Hlater.
    by rewrite (getUniqueTenantId_hit _ _ v Hlater).
  - pose proof (cachedId_later (afterMint tenant w) tenant (mintedId w tenant) (cache w)
                  (clock w) eq_refl d) as Hlater.
    rewrite Hd in Hlater.
    by rewrite (getUniqueTenantId_hit _ _ _ Hlater).
Qed.

Lemma getUniqueTenantId_within_ttl_witness :
  cachedId Sample.selfHosted "globex" = None ∧ 3600 < TTL.ONE_DAY ∧
  fst (getUniqueTenantId "globex"
         (with_clock (clock Sample.selfHosted + 3600)
            (snd (getUniqueTenantId "globex" Sample.selfHosted))))
    = fst (getUniqueTenantId "globex" Sample.selfHosted).
Proof.
  split; [reflexivity|]. split; [reflexivity|].
  apply (getUniqueTenantId_within_ttl "globex" Sample.selfHosted 3600); reflexivity.
Defined.

(** X9.  One day after a derivation that missed the cache the entry has
    expired: the next derivation reads the settings document again,
    returns the same id from it, writes nothing and caches the id
    anew. *)
Theorem getUniqueTenantId_after_ttl (tenant : string) (w : World) (d : Z) :
  cachedId w tenant = None →
  TTL.ONE_DAY ≤ d →
  let first := getUniqueTenantId tenant w in
  let later := with_clock (clock w + d) (snd first) in
  ∃ v, fst first = Ok v ∧
    fst (getUniqueTenantId tenant later) = Ok v ∧
    trace (snd (getUniqueTenantId tenant later)) =
      trace later ++ [CacheGet tenant CacheKeys.UNIQUE_TENANT_ID; DbGet tenant;
                      CacheStore tenant CacheKeys.UNIQUE_TENANT_ID v TTL.ONE_DAY] ∧
    globalDB (snd (getUniqueTenantId tenant later)) = globalDB (snd first).
Proof.
  intros Hmiss Hd. cbv zeta.
  apply Z.ltb_ge in Hd.
  destruct (getUniqueTenantId_run tenant w) as [v Hhit | v _ Hdoc Hv | _ Hdoc];
    [congruence | |].
  - pose proof (cachedId_later (afterRead tenant v w) tenant v (cache w) (clock w)
                  eq_refl d) as Hlater.
    rewrite Hd in Hlater. exists v. split; [done|].
    rewrite (getUniqueTenantId_read _ _ v Hlater) by done.
    split; [done|]. split; [|done].
    unfold afterRead. simpl. by rewrite <- !app_assoc.
  - pose proof (cachedId_later (afterMint tenant w) tenant (mintedId w tenant) (cache w)
                  (clock w) eq_refl d) as Hlater.
    rewrite Hd in Hlater. exists (mintedId w tenant). split; [done|].
    assert (Hnew : persistedId (with_clock (clock w + d) (afterMint tenant w)) tenant
                   = Some (mintedId w tenant)).
    { unfold persistedId, afterMint. simpl. by rewrite String.eqb_refl. }
    rewrite (getUniqueTenantId_read _ _ _ Hlater Hnew (mintedId_nonempty w tenant)).
    split; [done|]. split; [|done].
    unfold afterRead. simpl. by rewrite <- !app_assoc.
Qed.

Lemma getUniqueTenantId_after_ttl_witness :
  cachedId Sample.selfHosted "globex" = None ∧ TTL.ONE_DAY ≤ 90000 ∧
  ∃ v, fst (getUniqueTenantId "globex" Sample.selfHosted) = Ok v ∧
    fst (getUniqueTenantId "globex"
           (with_clock (clock Sample.selfHosted + 90000)
              (snd (getUniqueTenantId "globex" Sample.selfHosted)))) = Ok v.
Proof.
  split; [reflexivity|]. split; [discriminate|].
  destruct (getUniqueTenantId_after_ttl "globex" Sample.selfHosted 90000)
    as (v & Hfirst & Hlater & _); [reflexivity | discriminate |].
  by exists v.
Defined.

(** ** The current identity, further *)

(** The last branch of [getCurrentIdentity]. *)
Lemma getCurrentIdentity_else (w : World) :
  currentKind w ≠ IdentityType.INSTALLATION →
  currentKind w ≠ IdentityType.TENANT →
  currentKind w ≠ IdentityType.USER →
  getCurrentIdentity w = (Throw (Error "Unknown identity type"), w).
Proof.
  intros Hi Ht Hu. apply String.eqb_neq in Hi, Ht, Hu.
  unfold getCurrentIdentity, getIdentity, gets, throw, mbind, M_bind.
  fold (currentKind w). by rewrite Hi, Ht, Hu.
Qed.

(** X10.  [getCurrentIdentity] only reads: whatever the context, it
    makes no call to the EventSink, and the environment, the ambient
    identity, the ambient tenant and the installation record are the
    same after the call. *)
Theorem getCurrentIdentity_quiet (w : World) :
  quiet w (snd (getCurrentIdentity w)).
Proof.
  destruct (decide (currentKind w = IdentityType.INSTALLATION)) as [Hi|Hi].
  { rewrite (getCurrentIdentity_installation w Hi). apply quiet_refl. }
  destruct (decide (currentKind w = IdentityType.TENANT)) as [Ht|Ht].
  { by destruct (getCurrentIdentity_tenant w Ht) as (tid & w' & _ & Hq & ->). }
  destruct (decide (currentKind w = IdentityType.USER)) as [Hu|Hu].
  { destruct (currentKind_user w Hu) as (ctx & Hctx & Htype).
    by destruct (getCurrentIdentity_user w ctx Hctx Htype) as (tid & w' & _ & Hq & ->). }
  rewrite (getCurrentIdentity_else w Hi Ht Hu). apply quiet_refl.
Qed.

(** X11.  [getCurrentIdentity] returns an identity exactly when the
    kind it branches on is INSTALLATION, TENANT or USER. *)
Theorem getCurrentIdentity_ok_iff (w : World) :
  (∃ identity, fst (getCurrentIdentity w) = Ok identity) ↔
  currentKind w = IdentityType.INSTALLATION ∨
  currentKind w = IdentityType.TENANT ∨
  currentKind w = IdentityType.USER.
Proof.
  split.
  - intros (identity & Hok).
    destruct (decide (currentKind w = IdentityType.INSTALLATION)) as [Hi|Hi]; [by auto|].
    destruct (decide (currentKind w = IdentityType.TENANT)) as [Ht|Ht]; [by auto|].
    destruct (decide (currentKind w = IdentityType.USER)) as [Hu|Hu]; [by auto|].
    by rewrite (getCurrentIdentity_else w Hi Ht Hu) in Hok.
  - intros [Hi | [Ht | Hu]].
    + rewrite (getCurrentIdentity_installation w Hi). by eexists.
    + destruct (getCurrentIdentity_tenant w Ht) as (tid & w' & _ & _ & ->). by eexists.
    + destruct (currentKind_user w Hu) as (ctx & Hctx & Htype).
      destruct (getCurrentIdentity_user w ctx Hctx Htype) as (tid & w' & _ & _ & ->).
      by eexists.
Qed.



(** X13.  The hosting of a user identity is the hosting of the user's
    account when the context has one, whatever the hosting of the
    deployment, and the hosting of the environment otherwise; its tenant
    id is the event tenant id of the ambient tenant. *)
Theorem getCurrentIdentity_user_hosting (w : World) (ctx : IdentityContext.t) :
  identityContext w = Some ctx →
  IdentityContext.type ctx = IdentityType.USER →
  ∃ identity w' tenantId,
    getCurrentIdentity w = (Ok identity, w') ∧
    fst (getEventTenantId (tenantContext w) w) = Ok tenantId ∧
    identity !! "tenantId" = Some (JStr tenantId) ∧
    identity !! "hosting" =
      Some (JHosting (match IdentityContext.account ctx with
                      | Some account => Account.hosting account
                      | None => hostingFromEnv w
                      end)).
Proof.
  intros Hctx Htype.
  destruct (getCurrentIdentity_user w ctx Hctx Htype) as (tid & w' & Hevent & _ & ->).
  eexists _, w', tid. rewrite Hevent. by repeat split.
Qed.

Lemma getCurrentIdentity_user_hosting_witness :
  hostingFromEnv Scene.visitor = CLOUD ∧
  ∃ identity w' tenantId,
    getCurrentIdentity Scene.visitor = (Ok identity, w') ∧
    fst (getEventTenantId "acme" Scene.visitor) = Ok tenantId ∧
    identity !! "tenantId" = Some (JStr tenantId) ∧
    identity !! "hosting" = Some (JHosting SELF).
Proof.
  split; [reflexivity|].
  apply (getCurrentIdentity_user_hosting Scene.visitor
           (IdentityContext.mk IdentityType.USER (Some "us_1")
              (Some Sample.selfHostAccount))); reflexivity.
Defined.

(** X14.  In the account portal every identity that
    [getCurrentIdentity] returns has the installation id
    "account-portal"; the installation record is not looked at. *)
Theorem getCurrentIdentity_account_portal (w w' : World) (identity : Obj) :
  Env.SERVICE (env w) = "account-portal" →
  getCurrentIdentity w = (Ok identity, w') →
  identity !! "installationId" = Some (JStr "account-portal").
Proof.
  intros Hservice Hrun.
  assert (Hinst : installationIdOf w = "account-portal").
  { unfold installationIdOf. by rewrite Hservice. }
  destruct (decide (currentKind w = IdentityType.INSTALLATION)) as [Hi|Hi].
  { rewrite (getCurrentIdentity_installation w Hi) in Hrun.
    injection Hrun as <- _. by rewrite Hinst. }
  destruct (decide (currentKind w = IdentityType.TENANT)) as [Ht|Ht].
  { destruct (getCurrentIdentity_tenant w Ht) as (tid & w1 & _ & _ & Heq).
    rewrite Heq in Hrun. injection Hrun as <- _. by rewrite Hinst. }
  destruct (decide (currentKind w = IdentityType.USER)) as [Hu|Hu].
  { destruct (currentKind_user w Hu) as (ctx & Hctx & Htype).
    destruct (getCurrentIdentity_user w ctx Hctx Htype) as (tid & w1 & _ & _ & Heq).
    rewrite Heq in Hrun. injection Hrun as <- _. by rewrite Hinst. }
  by rewrite (getCurrentIdentity_else w Hi Ht Hu) in Hrun.
Qed.

Lemma getCurrentIdentity_account_portal_witness :
  Env.SERVICE (env Scene.portal) = "account-portal" ∧
  ∃ identity,
    fst (getCurrentIdentity Scene.portal) = Ok identity ∧
    identity !! "installationId" = Some (JStr "account-portal").
Proof.
  split; [reflexivity|].
  destruct (getCurrentIdentity Scene.portal) as [[identity|e] w'] eqn:Hrun;
    [|vm_compute in Hrun; discriminate Hrun].
  exists identity. split; [reflexivity|].
  apply (getCurrentIdentity_account_portal Scene.portal w' identity); [reflexivity | exact Hrun].
Defined.

(** ** The identify calls, further *)

(** X15.  [identifyInstallationGroup] makes two calls and nothing else:
    [identifyGroup] with the group of the four fields [id], [type],
    [hosting] and [version], then [identify] with a record that is the
    group but for its [id], which is the id [formatDistinctId] gives the
    installation.  The store and the cache are not used. *)
Theorem identifyInstallationGroup_calls (installId : string) (ts : option Timestamp)
    (w : World) :
  ∃ group identity,
    identifyInstallationGroup installId ts w =
      (Ok tt, emit (Identify identity ts) (emit (IdentifyGroup group ts) w)) ∧
    dom group = {["id"; "type"; "hosting"; "version"]} ∧
    group !! "id" = Some (JStr installId) ∧
    group !! "type" = Some (JStr IdentityType.INSTALLATION) ∧
    group !! "hosting" = Some (JHosting (hostingFromEnv w)) ∧
    group !! "version" = Some (JStr (Env.version (env w))) ∧
    identity !! "id" = Some (JStr (formatDistinctId installId IdentityType.INSTALLATION)) ∧
    ∀ name, name ≠ "id" → identity !! name = group !! name.
Proof.
  unfold identifyInstallationGroup, getHostingFromEnv. run_identity.
  eexists _, _. split; [reflexivity|]. split.
  { rewrite !dom_insert_L, dom_empty_L. set_solver. }
  repeat split.
  intros name Hne. by rewrite lookup_insert_ne.
Qed.


Lemma strictEq_eq (a b : option string) : strictEq a b = true ↔ a = b.
Proof.
  destruct a as [x|], b as [y|]; simpl; try (split; congruence).
  rewrite String.eqb_eq. split; congruence.
Qed.

(** What [identifyUser] puts in the identity. *)
Lemma identifyUser_fields (user : User.t) (account : option Account.t)
    (ts : option Timestamp) (w : World) :
  ∃ tenantId w1 identity,
    getEventTenantId (User.tenantId user) w = (Ok tenantId, w1) ∧ quiet w w1 ∧
    identifyUser user account ts w = (Ok tt, emit (Identify identity ts) w1) ∧
    identity !! "tenantId" = Some (JStr tenantId) ∧
    identity !! "installationId" = Some (JStr (installationIdOf w)) ∧
    identity !! "hosting" =
      Some (JHosting (match account with
                      | Some a => Account.hosting a
                      | None => hostingFromEnv w
                      end)) ∧
    identity !! "accountHolder" =
      Some (JBool (strictEq (account ≫= Account.budibaseUserId) (User._id user))) ∧
    identity !! "verified" =
      Some (JBool (match account with
                   | Some a => strictEq (Account.budibaseUserId a) (User._id user)
                               && Account.verified a
                   | None => false
                   end)) ∧
    identity !! "builder" = Some (JBool (globalOrFalse (User.builder user))) ∧
    identity !! "admin" = Some (JBool (globalOrFalse (User.admin user))) ∧
    identity !! "providerType" = Some (optStr (User.providerType user)).
Proof.
  destruct (getEventTenantId_quiet (User.tenantId user) w) as (tid & w1 & Hevent & Hq).
  exists tid, w1.
  unfold identifyUser, mbind, M_bind.
  rewrite Hevent, getInstallationId_eq, (quiet_installationId _ _ Hq).
  destruct account as [a|].
  - eexists. split; [done|]. split; [done|]. split; [reflexivity|].
    repeat split.
    by destruct (strictEq _ (User._id user)).
  - rewrite getHostingFromEnv_eq, (quiet_hosting _ _ Hq).
    eexists. split; [done|]. split; [done|]. split; [reflexivity|].
    repeat split.
    by destruct (strictEq _ (User._id user)).
Qed.

(** X17.  In the identity of [identifyUser] the user is an account
    holder exactly when the linked user id of the account and the id of
    the user are the same value, which includes the case that both are
    undefined: a user without id is an account holder when there is no
    account.  The user is verified exactly when there is an account that
    is linked to the user and is itself verified; so a verified user is
    always an account holder. *)
Theorem identifyUser_flags (user : User.t) (account : option Account.t)
    (ts : option Timestamp) (w : World) :
  ∃ w1 identity accountHolder verified,
    identifyUser user account ts w = (Ok tt, emit (Identify identity ts) w1) ∧
    identity !! "accountHolder" = Some (JBool accountHolder) ∧
    identity !! "verified" = Some (JBool verified) ∧
    (accountHolder = true ↔ account ≫= Account.budibaseUserId = User._id user) ∧
    (verified = true ↔
       ∃ a, account = Some a ∧ Account.budibaseUserId a = User._id user ∧
            Account.verified a = true) ∧
    (verified = true → accountHolder = true).
Proof.
  destruct (identifyUser_fields user account ts w)
    as (tid & w1 & identity & _ & _ & Hrun & _ & _ & _ & Hholder & Hverified & _).
  exists w1, identity. eexists _, _.
  split; [done|]. split; [done|]. split; [done|].
  split; [apply strictEq_eq|].
  destruct account as [a|]; simpl.
  - split.
    + split.
      * intros [Hlinked Hv]%andb_true_iff. apply strictEq_eq in Hlinked. by exists a.
      * intros (a' & [= <-] & Hlinked & Hv). apply andb_true_iff.
        split; [by apply strictEq_eq | done].
    + by intros [Hlinked _]%andb_true_iff.
  - split; [|done]. split; [done|]. by intros (a & Ha & _).
Qed.

(** X18.  [identifyUser] makes one call to the EventSink, [identify],
    with the timestamp it was given.  The tenant id of the identity is
    the event tenant id of the user's own tenant, not of the ambient
    one; the hosting is the account's when there is an account; and
    [builder] and [admin] are true only for a user whose flag has
    [global] set. *)
Theorem identifyUser_call (user : User.t) (account : option Account.t)
    (ts : option Timestamp) (w : World) :
  ∃ tenantId identity calls,
    fst (getEventTenantId (User.tenantId user) w) = Ok tenantId ∧
    fst (identifyUser user account ts w) = Ok tt ∧
    trace (snd (identifyUser user account ts w)) = trace w ++ calls ∧
    sinkCalls calls = [Identify identity ts] ∧
    tenantContext (snd (identifyUser user account ts w)) = tenantContext w ∧
    identity !! "tenantId" = Some (JStr tenantId) ∧
    identity !! "hosting" =
      Some (JHosting (match account with
                      | Some a => Account.hosting a
                      | None => hostingFromEnv w
                      end)) ∧
    (identity !! "builder" = Some (JBool true) ↔
       ∃ flag, User.builder user = Some flag ∧ global flag = true) ∧
    (identity !! "admin" = Some (JBool true) ↔
       ∃ flag, User.admin user = Some flag ∧ global flag = true).
Proof.
  destruct (identifyUser_fields user account ts w)
    as (tid & w1 & identity & Hevent & Hq & Hrun & Htenant & _ & Hhosting & _ & _
        & Hbuilder & Hadmin & _).
  destruct Hq as (_ & _ & Hctx & _ & calls & Htrace & Hsink).
  exists tid, identity, (calls ++ [Identify identity ts]).
  rewrite Hevent, Hrun. simpl.
  split; [done|]. split; [done|]. split; [by rewrite Htrace, app_assoc|].
  split; [by rewrite sinkCalls_app, Hsink|].
  split; [done|]. split; [done|]. split; [done|].
  rewrite Hbuilder, Hadmin.
  assert (Hflag : ∀ f : option GlobalFlag,
            Some (JBool (globalOrFalse f)) = Some (JBool true) ↔
            ∃ flag, f = Some flag ∧ global flag = true).
  { intros [[g]|]; simpl.
    - rewrite orb_false_r. split.
      + intros [= ->]. by eexists.
      + intros (flag & [= <-] & Hg). simpl in Hg. by rewrite Hg.
    - split; [done|]. by intros (flag & Hf & _). }
  split; apply Hflag.
Qed.

(** What [identifyAccount] puts in the identity. *)
Lemma identifyAccount_fields (account : Account.t) (w : World) :
  ∃ identity,
    identifyAccount account w = (Ok tt, emit (Identify identity None) w) ∧
    identity !! "tenantId" = Some (JStr (Account.tenantId account)) ∧
    identity !! "installationId" = Some (JStr (installationIdOf w)) ∧
    identity !! "hosting" = Some (JHosting (Account.hosting account)) ∧
    identity !! "accountHolder" = Some (JBool true) ∧
    identity !! "verified" = Some (JBool (Account.verified account)) ∧
    identity !! "providerType" =
      Some (optStr (if isSSOAccount account then Account.providerType account
                    else None)).
Proof.
  unfold identifyAccount, mbind, M_bind.
  rewrite getInstallationId_eq.
  eexists. split; [reflexivity|]. by repeat split.
Qed.


(** X20.  For an account that is not a cloud account, or whose
    [budibaseUserId] is undefined or empty, the id of the identity of
    [identifyAccount] is the account id. *)
Theorem identifyAccount_accountId (account : Account.t) (w : World) :
  isCloudAccount account = false ∨ truthy (Account.budibaseUserId account) = false →
  ∃ identity,
    identifyAccount account w = (Ok tt, emit (Identify identity None) w) ∧
    identity !! "id" = Some (JStr (Account.accountId account)).
Proof.
  intros Hfallback.
  destruct (identifyAccount_run account w) as (identity & Hrun & Hid & _).
  exists identity. split; [done|]. rewrite Hid.
  destruct Hfallback as [-> | Hunset]; [done|].
  rewrite ifTruthy_false by done. by destruct (isCloudAccount account).
Qed.

Lemma identifyAccount_accountId_witness :
  isCloudAccount Sample.selfHostAccount = false ∧
  ∃ identity,
    identifyAccount Sample.selfHostAccount Sample.selfHosted
      = (Ok tt, emit (Identify identity None) Sample.selfHosted) ∧
    identity !! "id" = Some (JStr "ac_1").
Proof.
  split; [reflexivity|].
  apply (identifyAccount_accountId Sample.selfHostAccount Sample.selfHosted).
  left. reflexivity.
Defined.

(** X21.  The identity of [identifyAccount] has the provider type of
    the account only for an account that signs in through a provider;
    for any other account the field is undefined, whatever the account
    record holds. *)
Theorem identifyAccount_providerType (account : Account.t) (w : World) :
  ∃ identity,
    identifyAccount account w = (Ok tt, emit (Identify identity None) w) ∧
    (isSSOAccount account = true →
       identity !! "providerType" = Some (optStr (Account.providerType account))) ∧
    (isSSOAccount account = false →
       identity !! "providerType" = Some JUndefined).
Proof.
  destruct (identifyAccount_fields account w) as (identity & Hrun & _ & _ & _ & _ & _ & Hp).
  exists identity. split; [done|]. rewrite Hp.
  by split; intros ->.
Qed.

Lemma identifyAccount_providerType_witness :
  (isSSOAccount Scene.ssoAccount = true ∧
   ∃ identity,
     fst (identifyAccount Scene.ssoAccount Sample.cloud) = Ok tt ∧
     trace (snd (identifyAccount Scene.ssoAccount Sample.cloud)) = [Identify identity None] ∧
     identity !! "providerType" = Some (JStr "google")) ∧
  (isSSOAccount Scene.passwordAccount = false ∧
   ∃ identity,
     fst (identifyAccount Scene.passwordAccount Sample.cloud) = Ok tt ∧
     trace (snd (identifyAccount Scene.passwordAccount Sample.cloud))
       = [Identify identity None] ∧
     identity !! "providerType" = Some JUndefined).
Proof.
  split; (split; [reflexivity|]).
  - destruct (identifyAccount_providerType Scene.ssoAccount Sample.cloud)
      as (identity & Hrun & Hsso & _).
    exists identity. rewrite Hrun. split; [done|]. split; [done|].
    apply Hsso. reflexivity.
  - destruct (identifyAccount_providerType Scene.passwordAccount Sample.cloud)
      as (identity & Hrun & _ & Hpassword).
    exists identity. rewrite Hrun. split; [done|]. split; [done|].
    apply Hpassword. reflexivity.
Defined.

(** ** Calls in a row *)

(** The event tenant id of a tenant is the same in a later world with
    the same environment, cache and clock. *)
Lemma getEventTenantId_again (tenantId id : string) (w w1 w2 : World) :
  getEventTenantId tenantId w = (Ok id, w1) →
  env w2 = env w → cache w2 = cache w1 → clock w2 = clock w1 →
  fst (getEventTenantId tenantId w2) = Ok id.
Proof.
  unfold getEventTenantId, gets, mbind, mret, M_bind, M_ret.
  intros Hrun Henv Hcache Hclock. rewrite Henv.
  destruct (Env.SELF_HOSTED (env w)).
  - destruct (run_cached _ _ _ _ (getUniqueTenantId_run tenantId w)) as (v & Hr & Hc).
    rewrite Hrun in Hr, Hc. simpl in Hr, Hc. injection Hr as ->.
    rewrite (getUniqueTenantId_hit tenantId w2 v); [done|].
    unfold cachedId, cacheLookup in *. by rewrite Hcache, Hclock.
  - by injection Hrun as -> _.
Qed.

(** X22.  After [identifyTenantGroup] for the ambient tenant, the
    identity that [getCurrentIdentity] returns without an identity
    context has the id of the record that was handed to [identify], and
    its tenant id is the id of the group: the events of the tenant are
    attributed to the group that was identified. *)
Theorem identifyTenantGroup_then_getCurrentIdentity (account : option Account.t)
    (ts : option Timestamp) (w : World) :
  identityContext w = None →
  let w' := snd (identifyTenantGroup (tenantContext w) account ts w) in
  ∃ group linked identity w'',
    sinkCalls (callsSince w w') = [IdentifyGroup group ts; Identify linked ts] ∧
    getCurrentIdentity w' = (Ok identity, w'') ∧
    identity !! "id" = linked !! "id" ∧
    identity !! "tenantId" = group !! "id".
Proof.
  intros Hnone. cbv zeta.
  destruct (identifyTenantGroup_run (tenantContext w) account ts w)
    as (id & w1 & Hevent & Hq & ->).
  destruct Hq as (Henv & Hctx & Htenant & _ & calls & Htrace & Hsink).
  set (group := tenantGroupOf id account w).
  set (linked := <["id" := JStr ("$tenant_" +:+ id)]> group).
  set (w' := emit (Identify linked ts) (emit (IdentifyGroup group ts) w1)).
  assert (Hkind : currentKind w' = IdentityType.TENANT).
  { unfold currentKind. simpl. by rewrite Hctx, Hnone. }
  destruct (getCurrentIdentity_tenant w' Hkind) as (tid & w'' & Hagain & _ & Hcurrent).
  assert (Htid : tid = id).
  { pose proof (getEventTenantId_again (tenantContext w) id w w1 w' Hevent Henv
                  eq_refl eq_refl) as Hsame.
    change (tenantContext w') with (tenantContext w1) in Hagain.
    rewrite Htenant, Hagain in *. by injection Hsame. }
  subst tid. exists group, linked. eexists _, w''.
  split; [|split; [exact Hcurrent|by split]].
  unfold callsSince. simpl. rewrite Htrace, <- !app_assoc, drop_app_length.
  by rewrite sinkCalls_app, Hsink.
Qed.

Lemma identifyTenantGroup_then_getCurrentIdentity_witness :
  identityContext Sample.selfHosted = None ∧
  ∃ group linked identity w'',
    sinkCalls (callsSince Sample.selfHosted
                 (snd (identifyTenantGroup "default" None None Sample.selfHosted)))
      = [IdentifyGroup group None; Identify linked None] ∧
    getCurrentIdentity (snd (identifyTenantGroup "default" None None Sample.selfHosted))
      = (Ok identity, w'') ∧
    identity !! "id" = linked !! "id" ∧
    identity !! "tenantId" = group !! "id".
Proof.
  split; [reflexivity|].
  apply (identifyTenantGroup_then_getCurrentIdentity None None Sample.selfHosted).
  reflexivity.
Defined.

(** X23.  [getEventTenantId] keeps the cache in agreement with the
    settings documents: if every live cache entry of a tenant holds the
    persisted id before the call, so it does after it, for the tenant of
    the call and for every other. *)
Theorem getEventTenantId_keeps_agreement (tenantId other : string) (w : World) :
  cacheAgrees w other →
  cacheAgrees (snd (getEventTenantId tenantId w)) other.
Proof.
  intros Hagree.
  unfold getEventTenantId, gets, mbind, mret, M_bind, M_ret.
  destruct (Env.SELF_HOSTED (env w)); [|done].
  by apply cacheAgrees_preserved.
Qed.

Lemma getEventTenantId_keeps_agreement_witness :
  cacheAgrees Sample.selfHosted "globex" ∧
  cacheAgrees (snd (getEventTenantId "globex" Sample.selfHosted)) "globex".
Proof.
  assert (Hstart : cacheAgrees Sample.selfHosted "globex").
  { intros v Hv. vm_compute in Hv. discriminate Hv. }
  split; [exact Hstart|].
  apply (getEventTenantId_keeps_agreement "globex" "globex" Sample.selfHosted Hstart).
Defined.

(** * The manifest generator, properties *)

Module ManifestFacts.
Import Manifest.

Lemma startsWith_spec (s p : string) :
  startsWith s p = true ↔ ∃ post, s = p +:+ post.
Proof.
  revert s. induction p as [|c p IH]; intros s.
  - split; [intros _; by exists s | intros _; by destruct s].
  - destruct s as [|d s]; cbn.
    { split; [done|]. intros (post & Heq). discriminate Heq. }
    rewrite andb_true_iff, Ascii.eqb_eq, IH. split.
    + intros [-> (post & ->)]. by exists post.
    + intros (post & Heq). injection Heq as -> ->. split; [done | by exists post].
Qed.

(** [includes] is the occurrence of one string in another. *)
Lemma includes_spec (haystack needle : string) :
  includes haystack needle = true ↔
  ∃ before after, haystack = before +:+ needle +:+ after.
Proof.
  induction haystack as [|c haystack IH]; simpl.
  - destruct (startsWith "" needle) eqn:Hp.
    + split; [|done]. intros _. apply startsWith_spec in Hp as (post & Heq).
      by exists "", post.
    + split; [done|]. intros ([|d before] & after & Heq); [|done].
      assert (startsWith "" needle = true) by (apply startsWith_spec; by exists after).
      congruence.
  - destruct (startsWith (String c haystack) needle) eqn:Hp.
    + split; [|done]. intros _. apply startsWith_spec in Hp as (post & Heq).
      by exists "", post.
    + rewrite IH. split.
      * intros (before & after & ->). by exists (String c before), after.
      * intros ([|d before] & after & Heq).
        -- assert (startsWith (String c haystack) needle = true)
             by (apply startsWith_spec; by exists after).
           congruence.
        -- injection Heq as _ ->. by exists before, after.
Qed.

Lemma append_empty_r (s : string) : s +:+ "" = s.
Proof.
  induction s as [|c s IH]; [done|].
  change (String c (s +:+ "") = String c s). by rewrite IH.
Qed.

Lemma includes_refl (s : string) : includes s s = true.
Proof.
  apply includes_spec. exists "", "".
  change (s = s +:+ ""). by rewrite append_empty_r.
Qed.

(** X24.  When the lines of the function fit in the file from [idx]
    on, [lookForward] returns a boolean, and it is [true] exactly when
    every line of the function occurs in the line of the file at the
    same offset from [idx]. *)
Theorem lookForward_in_range (lines funcLines : list string) (idx : nat) :
  (idx + length funcLines ≤ length lines)%nat →
  ∃ found,
    lookForward lines funcLines idx = Ok found ∧
    (found = true ↔
     ∀ j line funcLine,
       lines !! (idx + j)%nat = Some line → funcLines !! j = Some funcLine →
       includes line funcLine = true).
Proof.
  unfold lookForward. revert idx.
  induction funcLines as [|funcLine rest IH]; intros idx Hfit; simpl.
  - exists true. split; [done|]. split; [|done]. by intros _ j line funcLine _ Hnone.
  - simpl in Hfit.
    destruct (lines !! idx) as [line|] eqn:Hline.
    2:{ apply lookup_ge_None in Hline. lia. }
    destruct (includes line funcLine) eqn:Hinc; simpl.
    + destruct (IH (S idx)) as (found & Hrun & Hiff); [lia|].
      exists found. split; [done|]. rewrite Hiff. split.
      * intros Hrest [|j] l f Hl Hf.
        -- rewrite Nat.add_0_r, Hline in Hl. simpl in Hf. congruence.
        -- apply (Hrest j); [|done]. by rewrite <- Nat.add_succ_comm in Hl.
      * intros Hall j l f Hl Hf. apply (Hall (S j)); [|done].
        by rewrite <- Nat.add_succ_comm.
    + exists false. split; [done|]. split; [done|].
      intros Hall. rewrite (Hall 0%nat line funcLine) in Hinc; [done | | done].
      by rewrite Nat.add_0_r.
Qed.

Lemma lookForward_in_range_witness :
  (3 + length sampleFunction ≤ length sampleFile)%nat ∧
  ∃ found, lookForward sampleFile sampleFunction 3 = Ok found ∧ found = true.
Proof.
  split; [vm_compute; lia|].
  destruct (lookForward_in_range sampleFile sampleFunction 3) as (found & Hrun & Hiff);
    [vm_compute; lia|].
  exists found. split; [exact Hrun|].
  vm_compute in Hrun. by injection Hrun.
Defined.

(** X25.  When the file ends before the lines of the function do, and
    every line of the file from [idx] on has its line of the function in
    it, [lookForward] reads a line past the end and throws: it returns
    neither [true] nor [false]. *)
Theorem lookForward_past_end (lines funcLines : list string) (idx : nat) :
  funcLines ≠ [] →
  (length lines < idx + length funcLines)%nat →
  (∀ j line funcLine,
     lines !! (idx + j)%nat = Some line → funcLines !! j = Some funcLine →
     includes line funcLine = true) →
  lookForward lines funcLines idx =
    Throw (Error "Cannot read properties of undefined (reading 'includes')").
Proof.
  unfold lookForward. revert idx.
  induction funcLines as [|funcLine rest IH]; intros idx Hne Hlong Hall; [done|].
  simpl in *.
  destruct (lines !! idx) as [line|] eqn:Hline; [|done].
  rewrite (Hall 0%nat line funcLine); [simpl | by rewrite Nat.add_0_r | done].
  apply lookup_lt_Some in Hline.
  apply IH.
  - destruct rest; [simpl in Hlong; lia | done].
  - lia.
  - intros j l f Hl Hf. apply (Hall (S j)); [|done]. by rewrite <- Nat.add_succ_comm.
Qed.

Lemma lookForward_past_end_witness :
  lookForward sampleFile ["}"; "helpers.sub = function(a, b) {"] 5 =
    Throw (Error "Cannot read properties of undefined (reading 'includes')").
Proof.
  apply (lookForward_past_end sampleFile ["}"; "helpers.sub = function(a, b) {"] 5).
  - discriminate.
  - vm_compute. lia.
  - intros [|[|j]] line funcLine Hline Hfunc;
      vm_compute in Hline; try discriminate Hline.
    injection Hline as <-. injection Hfunc as <-. reflexivity.
Defined.

(** X26.  A line of the file that lacks its line of the function makes
    [lookForward] return [false]; it does not throw then, even when the
    function has more lines than the file has left. *)
Theorem lookForward_mismatch (lines funcLines : list string) (idx j : nat)
    (line funcLine : string) :
  lines !! (idx + j)%nat = Some line → funcLines !! j = Some funcLine →
  includes line funcLine = false →
  lookForward lines funcLines idx = Ok false.
Proof.
  unfold lookForward. revert idx j.
  induction funcLines as [|f rest IH]; intros idx j Hline Hfunc Hinc; [done|].
  simpl.
  destruct (lines !! idx) as [l|] eqn:Hl.
  2:{ apply lookup_ge_None in Hl. apply lookup_lt_Some in Hline. lia. }
  destruct j as [|j].
  - rewrite Nat.add_0_r, Hl in Hline. simpl in Hfunc.
    injection Hline as ->. injection Hfunc as ->. by rewrite Hinc.
  - destruct (includes l f); simpl; [|done].
    apply (IH (S idx) j); [|done..]. by rewrite Nat.add_succ_comm.
Qed.

Lemma lookForward_mismatch_witness :
  lookForward sampleFile sampleFunction 4 = Ok false.
Proof.
  apply (lookForward_mismatch sampleFile sampleFunction 4 0
           "  return a + b;" "function(a, b) {"); reflexivity.
Defined.

(** X27.  A text is found where it stands: for lines [body] that follow
    the lines [before] in a file, [lookForward] at the index of the
    first line of [body] returns [true]. *)
Theorem lookForward_self (before body after : list string) :
  lookForward (before ++ body ++ after) body (length before) = Ok true.
Proof.
  unfold lookForward. revert before.
  induction body as [|line rest IH]; intros before; [done|].
  simpl. rewrite lookup_app_r, Nat.sub_diag by done. simpl.
  rewrite includes_refl. simpl.
  specialize (IH (before ++ [line])).
  rewrite <- app_assoc, length_app in IH. simpl in IH.
  by rewrite Nat.add_1_r in IH.
Qed.

Lemma assign_a_b (array : list (option string)) :
  assign 1 "b" (assign 0 "a" array) = Some "a" :: Some "b" :: drop 2 array.
Proof. by destruct array as [|x [|y array]]. Qed.

(** X28.  [fixSpecialCases] never changes the number of arguments and
    the example of an entry.  It changes the names of the arguments for
    the helper [ifNth] only, and the description for the helpers
    [eachIndex], [toFloat] and [toInt] only; the entry of any other
    helper comes back as it was. *)
Theorem fixSpecialCases_frame (name : string) (obj : HelperInfo) :
  numArgs (fixSpecialCases name obj) = numArgs obj ∧
  example (fixSpecialCases name obj) = example obj ∧
  (name ≠ "ifNth" → args (fixSpecialCases name obj) = args obj) ∧
  (name ≠ "eachIndex" → name ≠ "toFloat" → name ≠ "toInt" →
   description (fixSpecialCases name obj) = description obj) ∧
  (name ≠ "ifNth" → name ≠ "eachIndex" → name ≠ "toFloat" → name ≠ "toInt" →
   fixSpecialCases name obj = obj).
Proof.
  unfold fixSpecialCases.
  destruct (String.eqb_spec name "ifNth"), (String.eqb_spec name "eachIndex"),
    (String.eqb_spec name "toFloat"), (String.eqb_spec name "toInt");
    repeat split; intros; (done || by destruct obj).
Qed.

Lemma fixSpecialCases_frame_witness :
  "multiply" ≠ "ifNth" ∧ fixSpecialCases "multiply" sampleInfo = sampleInfo.
Proof.
  split; [discriminate|].
  apply (fixSpecialCases_frame "multiply" sampleInfo); discriminate.
Defined.

(** X29.  For the helper [ifNth] the first two arguments are named [a]
    and [b] and the others keep their names; an entry with fewer than
    two arguments gets two, while its number of arguments stays what it
    was. *)
Theorem fixSpecialCases_ifNth (obj : HelperInfo) :
  args (fixSpecialCases "ifNth" obj) = Some "a" :: Some "b" :: drop 2 (args obj) ∧
  length (args (fixSpecialCases "ifNth" obj)) = (2 `max` length (args obj))%nat ∧
  numArgs (fixSpecialCases "ifNth" obj) = numArgs obj ∧
  description (fixSpecialCases "ifNth" obj) = description obj.
Proof.
  unfold fixSpecialCases. simpl. rewrite assign_a_b.
  repeat split. simpl. rewrite length_drop. lia.
Qed.

(** X30.  Fixing an entry twice is fixing it once. *)
Theorem fixSpecialCases_idempotent (name : string) (obj : HelperInfo) :
  fixSpecialCases name (fixSpecialCases name obj) = fixSpecialCases name obj.
Proof.
  unfold fixSpecialCases.
  destruct (String.eqb_spec name "ifNth") as [->|_]; simpl.
  - by rewrite !assign_a_b.
  - by destruct (String.eqb name "eachIndex"), (String.eqb name "toFloat"),
      (String.eqb name "toInt").
Qed.

End ManifestFacts.
